(** * The derivation engine of the finance tracker

    A shallow embedding of [src/utils/calculations.ts] together with the
    record types of [types/models.ts], and the properties of the
    specification that are stated about them.

    Numbers.  The amounts that the engine manipulates are "decimal" values
    in the data model of the specification.  They are embedded as canonical
    rationals [Qc] with exact arithmetic: equality is Leibniz equality, the
    comparisons are decidable and every definition below evaluates.  The
    rounding of IEEE doubles, [NaN] and infinite inputs are outside this
    model; the one place where the source itself produces a non-finite
    number, the [Infinity] returned by [calculateMonthsToGoal], is modelled
    by the explicit type [xnumber].  No function below divides by a
    divisor that can be zero without testing it first, so the value that
    [Qc] gives to a division by zero is never relied on. *)

From Stdlib Require Import QArith Qcanon Qround.
From stdpp Require Import gmap strings list.

Local Open Scope Qc_scope.

(** ** Numbers *)

Abbreviation number := Qc.

(** Integer literals of the source, as numbers. *)
Definition lit (z : Z) : number := Qc_of_Z z.

(** A number that may be the JavaScript value [Infinity]. *)
Inductive xnumber : Type :=
| Finite (x : number)
| Infinity.

(** [Math.ceil] and [Math.min] on finite numbers. *)
Definition Math_ceil (x : number) : number := lit (Qceiling x).

Definition Math_min (x y : number) : number :=
  if decide (y < x) then y else x.

(** [v || 0] for [v : number | undefined]: [undefined] and the falsy number
    [0] both give [0]. *)
Definition or_zero (v : option number) : number :=
  match v with
  | Some x => if decide (x = 0) then 0 else x
  | None => 0
  end.

(** ** The data model ([types/models.ts])

    The two enumerations are string enums; their values reach the engine as
    plain strings read back from the database, so a frequency is a string
    and the [default] branch of [convertToMonthly] is reachable.  The
    [Date] fields [createdAt] and [updatedAt] are never read by the engine
    and are left out. *)

Module IncomeType.
Definition t : Type := string.
Definition SALARY : t := "salary".
Definition FREELANCE : t := "freelance".
Definition SIDE_HUSTLE : t := "side_hustle".
Definition INVESTMENT : t := "investment".
Definition PASSIVE : t := "passive".
Definition OTHER : t := "other".
End IncomeType.

Module IncomeFrequency.
Definition t : Type := string.
Definition MONTHLY : t := "monthly".
Definition WEEKLY : t := "weekly".
Definition YEARLY : t := "yearly".
Definition ONE_TIME : t := "one_time".
End IncomeFrequency.

Module IncomeSource.
Record t : Type := mk {
  id : string;
  name : string;
  amount : number;
  type : string;
  frequency : string;
  isActive : bool
}.
End IncomeSource.

Module MonthlyIncome.
Record t : Type := mk {
  id : string;
  year : Z;
  month : Z;
  incomeSourceId : option string;
  amount : number;
  name : string;
  type : string;
  isActive : bool;
  isRecurring : bool
}.
End MonthlyIncome.

Module Projection.
Record t : Type := mk {
  years : number;
  total : number;
  saved : number
}.
End Projection.

Module Breakdown.
Record t : Type := mk {
  type : string;
  amount : number;
  percentage : number
}.
End Breakdown.

Module CalculationResults.
Record t : Type := mk {
  monthlyIncome : number;
  yearlyIncome : number;
  monthlySavings : number;
  yearlySavings : number;
  projections : list Projection.t;
  incomeBreakdown : list Breakdown.t
}.
End CalculationResults.

Module WhatIfScenario.
Record t : Type := mk {
  savingsPercentage : number;
  monthlyIncome : number;
  monthlySavings : number;
  projection5Years : number;
  projection10Years : number
}.
End WhatIfScenario.

(** ** An insertion-ordered [Map], as [new Map<K, number>()]

    [set] on a key that is present replaces its value in place; on a new
    key it appends the entry, so [entries] lists the keys in the order of
    their first insertion. *)

Module JsMap.
Section JsMap.
Context {K : Type} `{EqDecision K} {V : Type}.

Definition t : Type := list (K * V).

Definition empty : t := [].

Fixpoint get (k : K) (m : t) : option V :=
  match m with
  | [] => None
  | (k', v) :: m' => if decide (k' = k) then Some v else get k m'
  end.

Fixpoint set (k : K) (v : V) (m : t) : t :=
  match m with
  | [] => [(k, v)]
  | (k', v') :: m' =>
      if decide (k' = k) then (k', v) :: m' else (k', v') :: set k v m'
  end.

Definition entries (m : t) : list (K * V) := m.

End JsMap.
End JsMap.

(** ** Frequency normalizer *)

Definition convertToMonthly (amount : number) (frequency : string) : number :=
  if String.eqb frequency "monthly" then amount
  else if String.eqb frequency "weekly" then amount * lit 52 / lit 12
  else if String.eqb frequency "yearly" then amount / lit 12
  else if String.eqb frequency "one_time" then 0
  else 0.


(** ** Income aggregator, from source definitions *)

Definition calculateMonthlyIncome (sources : list IncomeSource.t) : number :=
  foldl
    (fun total source =>
       total + convertToMonthly (IncomeSource.amount source)
                                (IncomeSource.frequency source))
    0
    (List.filter IncomeSource.isActive sources).


(** ** Breakdown aggregator, from source definitions *)

Definition percentageOf (totalMonthly amount : number) : number :=
  if decide (0 < totalMonthly) then amount / totalMonthly * lit 100 else 0.

Definition toBreakdown (totalMonthly : number) (entry : string * number)
  : Breakdown.t :=
  let '(type, amount) := entry in
  {| Breakdown.type := type;
     Breakdown.amount := amount;
     Breakdown.percentage := percentageOf totalMonthly amount |}.

Definition calculateIncomeBreakdown (sources : list IncomeSource.t)
  : list Breakdown.t :=
  let activeSources := List.filter IncomeSource.isActive sources in
  let totalMonthly := calculateMonthlyIncome activeSources in
  let breakdown :=
    foldl
      (fun (breakdown : JsMap.t) source =>
         let monthlyAmount :=
           convertToMonthly (IncomeSource.amount source)
                            (IncomeSource.frequency source) in
         let current := or_zero (JsMap.get (IncomeSource.type source) breakdown) in
         JsMap.set (IncomeSource.type source) (current + monthlyAmount) breakdown)
      JsMap.empty
      activeSources in
  map (toBreakdown totalMonthly) (JsMap.entries breakdown).

(** ** Savings calculator *)

Definition calculateMonthlySavings (monthlyIncome savingsPercentage : number)
  : number :=
  (monthlyIncome * savingsPercentage) / lit 100.

Definition calculateYearlySavings (monthlyIncome savingsPercentage : number)
  : number :=
  calculateMonthlySavings monthlyIncome savingsPercentage * lit 12.

Definition calculateSavingsProjection
  (currentSavings alreadySaved monthlyIncome savingsPercentage years : number)
  : number :=
  let yearlySavings := calculateYearlySavings monthlyIncome savingsPercentage in
  let totalSaved := yearlySavings * years in
  currentSavings + alreadySaved + totalSaved.

(** ** Income and breakdown aggregators, from per-month entries *)

Definition calculateMonthlyIncomeFromData (monthlyIncomes : list MonthlyIncome.t)
  : number :=
  foldl
    (fun total income => total + MonthlyIncome.amount income)
    0
    (List.filter MonthlyIncome.isActive monthlyIncomes).

(** [yearData] is a [Map<number, MonthlyIncome[]>]; the loop reads the keys
    [1] to [12] and [yearData.get(month) || []] turns an absent month into
    the empty list. *)
Definition calculateYearlyIncomeFromData
  (yearData : gmap Z (list MonthlyIncome.t)) : number :=
  foldl
    (fun total month =>
       let monthIncomes := default [] (yearData !! month) in
       total + calculateMonthlyIncomeFromData monthIncomes)
    0
    (seqZ 1 12).

Definition calculateIncomeBreakdownFromData
  (monthlyIncomes : list MonthlyIncome.t) : list Breakdown.t :=
  let activeIncomes := List.filter MonthlyIncome.isActive monthlyIncomes in
  let totalMonthly := calculateMonthlyIncomeFromData activeIncomes in
  let breakdown :=
    foldl
      (fun (breakdown : JsMap.t) income =>
         let current := or_zero (JsMap.get (MonthlyIncome.type income) breakdown) in
         JsMap.set (MonthlyIncome.type income)
                   (current + MonthlyIncome.amount income) breakdown)
      JsMap.empty
      activeIncomes in
  map (toBreakdown totalMonthly) (JsMap.entries breakdown).

(** ** Results composer *)

Definition projectionYears : list number := [lit 1; lit 3; lit 5; lit 10].

Definition calculateResultsFromMonthlyData
  (currentMonthIncomes : list MonthlyIncome.t)
  (yearData : gmap Z (list MonthlyIncome.t))
  (currentSavings alreadySaved savingsPercentage : number)
  : CalculationResults.t :=
  let monthlyIncome := calculateMonthlyIncomeFromData currentMonthIncomes in
  let yearlyIncome := calculateYearlyIncomeFromData yearData in
  let monthlySavings := calculateMonthlySavings monthlyIncome savingsPercentage in
  let yearlySavings := calculateYearlySavings monthlyIncome savingsPercentage in
  let projections :=
    map (fun years =>
           {| Projection.years := years;
              Projection.total :=
                calculateSavingsProjection currentSavings alreadySaved
                  monthlyIncome savingsPercentage years;
              Projection.saved := yearlySavings * years |})
        projectionYears in
  let incomeBreakdown := calculateIncomeBreakdownFromData currentMonthIncomes in
  {| CalculationResults.monthlyIncome := monthlyIncome;
     CalculationResults.yearlyIncome := yearlyIncome;
     CalculationResults.monthlySavings := monthlySavings;
     CalculationResults.yearlySavings := yearlySavings;
     CalculationResults.projections := projections;
     CalculationResults.incomeBreakdown := incomeBreakdown |}.


(** ** Scenario generator *)

Definition createWhatIfScenario
  (monthlyIncome savingsPercentage currentSavings alreadySaved : number)
  : WhatIfScenario.t :=
  let monthlySavings := calculateMonthlySavings monthlyIncome savingsPercentage in
  {| WhatIfScenario.savingsPercentage := savingsPercentage;
     WhatIfScenario.monthlyIncome := monthlyIncome;
     WhatIfScenario.monthlySavings := monthlySavings;
     WhatIfScenario.projection5Years :=
       calculateSavingsProjection currentSavings alreadySaved
         monthlyIncome savingsPercentage (lit 5);
     WhatIfScenario.projection10Years :=
       calculateSavingsProjection currentSavings alreadySaved
         monthlyIncome savingsPercentage (lit 10) |}.

Definition defaultPercentages : list number := [lit 10; lit 15; lit 20; lit 30; lit 40; lit 50].

(** The last parameter is optional in the source: [None] is a call that
    leaves it out, and the default list takes its place. *)
Definition createWhatIfScenarios
  (monthlyIncome currentSavings alreadySaved : number)
  (percentages : option (list number)) : list WhatIfScenario.t :=
  let percentages := default defaultPercentages percentages in
  map (fun percentage =>
         createWhatIfScenario monthlyIncome percentage currentSavings alreadySaved)
      percentages.

(** ** Goal progress calculator *)

Definition calculateGoalProgress (current target : number) : number :=
  if decide (target = 0) then 0
  else Math_min (current / target * lit 100) (lit 100).

Definition calculateMonthsToGoal
  (currentAmount targetAmount monthlySavings : number) : xnumber :=
  if decide (monthlySavings = 0) then Infinity
  else
    let remaining := targetAmount - currentAmount in
    if decide (remaining <= 0) then Finite 0
    else Finite (Math_ceil (remaining / monthlySavings)).

(** ** Callers of the engine: the pages

    The pages compute a few figures of their own from the records that the
    store hands them.  [MonthlySavings] is the record of what was really
    saved in a month; [notes] is optional. *)

Module MonthlySavings.
Record t : Type := mk {
  id : string;
  year : Z;
  month : Z;
  savedAmount : number;
  notes : option string
}.
End MonthlySavings.

Module Savings.
Record t : Type := mk {
  id : string;
  currentSavings : number;
  alreadySaved : number
}.
End Savings.

(** The "Monthly Income" page.  [monthlyData] and [monthlySavingsData] are
    its two [Map]s, keyed by the month; a value of the second one may be
    [undefined]. *)
Module MonthlyIncomePage.

Definition calculateMonthTotal
  (monthlyData : gmap Z (list MonthlyIncome.t)) (month : Z) : number :=
  let incomes := default [] (monthlyData !! month) in
  foldl (fun sum income => sum + MonthlyIncome.amount income) 0
    (List.filter MonthlyIncome.isActive incomes).

Definition calculateSavingsPercentage
  (monthlyData : gmap Z (list MonthlyIncome.t))
  (monthlySavingsData : gmap Z (option MonthlySavings.t)) (month : Z)
  : number :=
  let total := calculateMonthTotal monthlyData month in
  match mjoin (monthlySavingsData !! month) with
  | Some savings =>
      if decide (total = 0) then 0
      else MonthlySavings.savedAmount savings / total * lit 100
  | None => 0
  end.

End MonthlyIncomePage.

(** The dashboard: the totals of its header and the twelve cards of
    "Savings Over Time". *)
Module Dashboard.

Definition yearlySavingsTotal (yearlySavings : list MonthlySavings.t) : number :=
  foldl (fun sum s => sum + MonthlySavings.savedAmount s) 0 yearlySavings.

Definition totalSavings (savings : Savings.t)
  (yearlySavings : list MonthlySavings.t) : number :=
  Savings.currentSavings savings + Savings.alreadySaved savings
  + yearlySavingsTotal yearlySavings.

Record MonthCard : Type := mkCard {
  savedAmount : number;
  percentage : number
}.

Definition monthCard (yearlySavings : list MonthlySavings.t)
  (yearlyIncomes : gmap Z (list MonthlyIncome.t)) (i : nat) : MonthCard :=
  let month := (Z.of_nat i + 1)%Z in
  let monthSavings :=
    List.find (fun s => (MonthlySavings.month s =? month)%Z) yearlySavings in
  let monthIncomes := default [] (yearlyIncomes !! month) in
  let monthIncome :=
    foldl (fun total income => total + MonthlyIncome.amount income) 0
      (List.filter MonthlyIncome.isActive monthIncomes) in
  let savedAmount := or_zero (MonthlySavings.savedAmount <$> monthSavings) in
  let percentage :=
    if decide (0 < monthIncome) then savedAmount / monthIncome * lit 100
    else 0 in
  {| savedAmount := savedAmount; percentage := percentage |}.

End Dashboard.

(** The analytics page: the series of the "Savings Over Time" chart. *)
Module Analytics.

Record SavingsPoint : Type := mkPoint {
  name : string;
  monthly : number;
  cumulative : number
}.

Definition monthNames : list string :=
  ["Jan"; "Feb"; "Mar"; "Apr"; "May"; "Jun";
   "Jul"; "Aug"; "Sep"; "Oct"; "Nov"; "Dec"].

Definition savingsOverTimeData (yearlySavings : list MonthlySavings.t)
  : list SavingsPoint :=
  imap
    (fun index monthName =>
       let month := (Z.of_nat index + 1)%Z in
       let monthSavings :=
         List.find (fun s => (MonthlySavings.month s =? month)%Z)
           yearlySavings in
       let savedAmount := or_zero (MonthlySavings.savedAmount <$> monthSavings) in
       let cumulativeTotal :=
         foldl (fun sum s => sum + MonthlySavings.savedAmount s) 0
           (List.filter (fun s => (MonthlySavings.month s <=? month)%Z)
              yearlySavings) in
       {| name := monthName;
          monthly := savedAmount;
          cumulative := cumulativeTotal |})
    monthNames.

End Analytics.

(** ** Callers of the engine: the services and the store

    A table of the local database is embedded as the list of its rows, and
    a service as a function from the table before the call to the table
    after it, for calls that run one after the other.  [add] puts a row at
    the end; a query with [first] is [find]; [update] by primary key
    changes the rows with that [id].  The identifier that
    [crypto.randomUUID] draws for a new row is a parameter of the call. *)

Module AppSettings.
Record t : Type := mk {
  id : string;
  savingsPercentage : number;
  currency : string;
  locale : string;
  theme : string
}.
End AppSettings.

Module monthlySavingsService.



End monthlySavingsService.

Module monthlyIncomeService.


(** The loop [while (month > 12) { month -= 12; year += 1; }] of
    [generateFromSource], run for at most [fuel] rounds. *)
Fixpoint rollOver (fuel : nat) (year month : Z) : Z * Z :=
  match fuel with
  | O => (year, month)
  | S fuel' =>
      if (12 <? month)%Z then rollOver fuel' (year + 1) (month - 12)
      else (year, month)
  end.

(** The query of [generateFromSource] for a row of the source in a month,
    and the row that it adds when there is none. *)
Definition isEntryOf (source : IncomeSource.t) (year month : Z)
  (income : MonthlyIncome.t) : bool :=
  (MonthlyIncome.year income =? year)%Z
  && (MonthlyIncome.month income =? month)%Z
  && bool_decide (MonthlyIncome.incomeSourceId income
                  = Some (IncomeSource.id source)).

Definition newEntry (id : string) (source : IncomeSource.t) (year month : Z)
  : MonthlyIncome.t :=
  {| MonthlyIncome.id := id;
     MonthlyIncome.year := year;
     MonthlyIncome.month := month;
     MonthlyIncome.incomeSourceId := Some (IncomeSource.id source);
     MonthlyIncome.amount := IncomeSource.amount source;
     MonthlyIncome.name := IncomeSource.name source;
     MonthlyIncome.type := IncomeSource.type source;
     MonthlyIncome.isActive := IncomeSource.isActive source;
     MonthlyIncome.isRecurring := true |}.

(** One round of the [for] loop of [generateFromSource]: the month that is
    [i] months after the start gets a row of the source unless it has one.
    [Z.to_nat month] rounds are enough for the inner loop to end by its own
    test, as is proved of [rollOver] below. *)
Definition generateFromSource_round (newId : Z -> string)
  (source : IncomeSource.t) (startYear startMonth : Z)
  (table : list MonthlyIncome.t) (i : Z) : list MonthlyIncome.t :=
  let '(year, month) :=
    rollOver (Z.to_nat (startMonth + i)) startYear (startMonth + i) in
  let existing := List.find (isEntryOf source year month) table in
  match existing with
  | Some _ => table
  | None => table ++ [newEntry (newId i) source year month]
  end.

(** [monthsCount] is optional in the source, with the default 12. *)
Definition generateFromSource (newId : Z -> string)
  (source : IncomeSource.t) (startYear startMonth : Z)
  (monthsCount : option Z)
  (table : list MonthlyIncome.t) : list MonthlyIncome.t :=
  let monthsCount := default 12%Z monthsCount in
  if negb (String.eqb (IncomeSource.frequency source) "monthly") then table
  else
    foldl (generateFromSource_round newId source startYear startMonth)
      table (seqZ 0 monthsCount).

End monthlyIncomeService.

(** The store: the result that [recalculate] publishes.  [getByMonth year
    month] stands for the rows that the database returns for a month while
    [recalculate] runs; nothing is published without savings or
    settings. *)
Module useAppStore.


End useAppStore.

(** ** Notions of the specification

    The sum of a list of numbers, as the specification writes sums. *)
Definition sum_numbers (l : list number) : number := foldr Qcplus 0 l.

(** The monthly-from-entries aggregation of one month of a year map: the
    aggregation of the entries recorded for that month, and [0] for a month
    that the map does not have. *)
Definition monthTotal (yearData : gmap Z (list MonthlyIncome.t)) (month : Z)
  : number :=
  match yearData !! month with
  | Some monthIncomes => calculateMonthlyIncomeFromData monthIncomes
  | None => 0
  end.

(** [materialized sources entries]: the entries are the per-month entries of
    the sources, in the order of the sources.  An active source has one
    entry, with the same active flag and the source's monthly equivalent as
    its amount.  An inactive source has either no entry or an inactive
    one. *)
Inductive materialized : list IncomeSource.t -> list MonthlyIncome.t -> Prop :=
| materialized_nil : materialized [] []
| materialized_active source entry sources entries :
    IncomeSource.isActive source = true ->
    MonthlyIncome.isActive entry = IncomeSource.isActive source ->
    MonthlyIncome.amount entry
      = convertToMonthly (IncomeSource.amount source)
                         (IncomeSource.frequency source) ->
    materialized sources entries ->
    materialized (source :: sources) (entry :: entries)
| materialized_inactive source entry sources entries :
    IncomeSource.isActive source = false ->
    MonthlyIncome.isActive entry = IncomeSource.isActive source ->
    materialized sources entries ->
    materialized (source :: sources) (entry :: entries)
| materialized_skipped source sources entries :
    IncomeSource.isActive source = false ->
    materialized sources entries ->
    materialized (source :: sources) entries.

(** The body of the grouping loop of the two breakdown functions, for
    records with the category [key x] and the monthly amount [value x]. *)
Definition group_step {A : Type} (key : A -> string) (value : A -> number)
  (breakdown : JsMap.t) (x : A) : JsMap.t :=
  JsMap.set (key x) (or_zero (JsMap.get (key x) breakdown) + value x) breakdown.


(** The distinct elements of a list, in the order of their first
    occurrence. *)
Definition add_key (seen : list string) (k : string) : list string :=
  if decide (k ∈ seen) then seen else seen ++ [k].

Definition first_occurrences (l : list string) : list string :=
  foldl add_key [] l.


(** * Properties *)

(** ** Arithmetic helpers *)

(** Closed equations and inequations between numbers are decided by
    evaluation. *)
Ltac qc_eval := apply Qc_is_canon; vm_compute; reflexivity.
Ltac qc_order := vm_compute; first [reflexivity | discriminate | congruence].

Lemma lit_0 : lit 0 = 0.
Proof. qc_eval. Qed.

Lemma lit_inj (a b : Z) : lit a = lit b -> a = b.
Proof. intros H. apply (f_equal this) in H. by injection H. Qed.

Lemma lit_neq_0 (z : Z) : z <> 0%Z -> lit z <> 0.
Proof. intros Hz H. rewrite <- lit_0 in H. apply lit_inj in H. done. Qed.



Lemma lit_100_nonneg : 0 <= lit 100.
Proof. qc_order. Qed.

Lemma Qc_pos_neq_0 (x : number) : 0 < x -> x <> 0.
Proof. intros H ->. by apply (Qclt_not_eq 0 0). Qed.

Lemma Qcdiv_nonneg_pos (x y : number) : 0 <= x -> 0 < y -> 0 <= x / y.
Proof.
  intros Hx Hy. unfold Qcdiv.
  apply Qcmult_nonneg_nonneg; [done|]. by apply Qclt_le_weak, Qcinv_pos.
Qed.

(** [Math.ceil x] is the least integer that is not below [x]. *)
Lemma Math_ceil_spec (x : number) :
  lit (Qceiling x - 1) < x /\ x <= lit (Qceiling x).
Proof.
  split.
  - unfold Qclt, lit. simpl. apply Qceiling_lt.
  - unfold Qcle, lit. simpl. apply Qle_ceiling.
Qed.

Lemma Math_min_l (x y : number) : x <= y -> Math_min x y = x.
Proof.
  intros H. unfold Math_min. case_decide; [|done].
  apply Qcle_antisym; [by apply Qclt_le_weak|done].
Qed.

Lemma Math_min_r (x y : number) : y <= x -> Math_min x y = y.
Proof.
  intros H. unfold Math_min. case_decide; [done|].
  apply Qcle_antisym; [|done]. by apply Qcnot_lt_le.
Qed.

Lemma or_zero_default (v : option number) : or_zero v = default 0 v.
Proof. destruct v as [x|]; simpl; [|done]. by case_decide. Qed.

(** ** Frequency normalizer *)

(** C1.  [convertToMonthly a f] is [a] for the monthly frequency,
    [a * 52 / 12] for the weekly one, [a / 12] for the yearly one, [0] for
    a one-time amount, and [0] for every string that is none of the four
    frequencies; being a total function, it has no failing case. *)
Theorem convertToMonthly_cases (a : number) (f : string) :
  (f = IncomeFrequency.MONTHLY -> convertToMonthly a f = a) /\
  (f = IncomeFrequency.WEEKLY -> convertToMonthly a f = a * lit 52 / lit 12) /\
  (f = IncomeFrequency.YEARLY -> convertToMonthly a f = a / lit 12) /\
  (f = IncomeFrequency.ONE_TIME -> convertToMonthly a f = 0) /\
  (f <> IncomeFrequency.MONTHLY -> f <> IncomeFrequency.WEEKLY ->
   f <> IncomeFrequency.YEARLY -> f <> IncomeFrequency.ONE_TIME ->
   convertToMonthly a f = 0).
Proof.
  repeat split; try (intros ->; reflexivity).
  intros Hm Hw Hy Ho. unfold convertToMonthly.
  repeat match goal with
  | |- context [String.eqb f ?s] =>
      destruct (String.eqb_spec f s) as [->|_]; [done|]
  end.
  reflexivity.
Qed.

Lemma convertToMonthly_cases_witness :
  convertToMonthly (lit 300) "monthly" = lit 300 /\
  convertToMonthly (lit 300) "weekly" = lit 1300 /\
  convertToMonthly (lit 300) "yearly" = lit 25 /\
  convertToMonthly (lit 300) "one_time" = 0 /\
  convertToMonthly (lit 300) "biweekly" = 0.
Proof.
  destruct (convertToMonthly_cases (lit 300) "monthly") as (Hm & _).
  destruct (convertToMonthly_cases (lit 300) "weekly") as (_ & Hw & _).
  destruct (convertToMonthly_cases (lit 300) "yearly") as (_ & _ & Hy & _).
  destruct (convertToMonthly_cases (lit 300) "one_time") as (_ & _ & _ & Ho & _).
  destruct (convertToMonthly_cases (lit 300) "biweekly") as (_ & _ & _ & _ & Hd).
  split; [by apply Hm|].
  split; [rewrite Hw by done; qc_eval|].
  split; [rewrite Hy by done; qc_eval|].
  split; [by apply Ho|].
  by apply Hd.
Defined.

(** ** Savings calculator *)

Lemma calculateSavingsProjection_eq (cs al mi sp years : number) :
  calculateSavingsProjection cs al mi sp years =
  cs + al + (mi * sp / lit 100 * lit 12) * years.
Proof. reflexivity. Qed.

(** C4, as stated, fails: with a yearly savings target of 120 the
    projection one year back is 120 below the baseline, not the baseline. *)
Lemma calculateSavingsProjection_negative_years :
  lit (-1) <= 0 /\
  calculateSavingsProjection 0 0 (lit 100) (lit 10) (lit (-1)) = lit (-120) /\
  calculateSavingsProjection 0 0 (lit 100) (lit 10) (lit (-1)) <> 0 + 0.
Proof.
  split; [qc_order|]. split; [qc_eval|].
  intros H. apply (f_equal this) in H. vm_compute in H. discriminate.
Qed.

(** C4, amended.  The projection is
    [currentSavings + alreadySaved + (monthlyIncome * savingsPercentage / 100 * 12) * years]
    for all inputs; at [years = 0] it is the baseline
    [currentSavings + alreadySaved]; the number of years is not clamped, so
    the projection is the baseline exactly when [years = 0] or the yearly
    savings target is [0], also for negative [years]. *)
Theorem calculateSavingsProjection_linear (cs al mi sp years : number) :
  calculateSavingsProjection cs al mi sp years =
    cs + al + (mi * sp / lit 100 * lit 12) * years /\
  calculateSavingsProjection cs al mi sp 0 = cs + al /\
  (calculateSavingsProjection cs al mi sp years = cs + al <->
   (years = 0 \/ calculateYearlySavings mi sp = 0)).
Proof.
  split; [reflexivity|]. split.
  { rewrite calculateSavingsProjection_eq. ring. }
  unfold calculateSavingsProjection. cbv zeta.
  set (y := calculateYearlySavings mi sp). split.
  - intros H.
    assert (y * years = 0) as Hz.
    { apply (inj (Qcplus (cs + al))). rewrite H. ring. }
    destruct (Qcmult_integral _ _ Hz); auto.
  - intros [-> | ->]; ring.
Qed.

Lemma calculateSavingsProjection_linear_witness :
  calculateSavingsProjection (lit 7) (lit 3) (lit 100) (lit 10) (lit (-2)) =
    lit 7 + lit 3 + (lit 100 * lit 10 / lit 100 * lit 12) * lit (-2) /\
  calculateSavingsProjection (lit 7) (lit 3) (lit 100) (lit 10) 0 = lit 7 + lit 3 /\
  (calculateSavingsProjection (lit 7) (lit 3) (lit 100) (lit 10) (lit (-2))
     = lit 7 + lit 3 <->
   (lit (-2) = 0 \/ calculateYearlySavings (lit 100) (lit 10) = 0)).
Proof.
  destruct (calculateSavingsProjection_linear
              (lit 7) (lit 3) (lit 100) (lit 10) (lit (-2))) as (H1 & H2 & H3).
  split; [exact H1|]. split; [exact H2|]. exact H3.
Defined.

(** ** Goal progress calculator *)

(** C6.  For non-negative [current] and [target], the progress is [0] when
    [target = 0] and otherwise the smaller of [current / target * 100] and
    [100]; it lies between [0] and [100].  Progress of 50 towards 100 is
    50, of 150 towards 100 is 100, and towards a target of 0 it is 0. *)
Theorem calculateGoalProgress_clamped (current target : number) :
  0 <= current -> 0 <= target ->
  (target = 0 -> calculateGoalProgress current target = 0) /\
  (target <> 0 ->
   (current / target * lit 100 <= lit 100 ->
    calculateGoalProgress current target = current / target * lit 100) /\
   (lit 100 <= current / target * lit 100 ->
    calculateGoalProgress current target = lit 100)) /\
  0 <= calculateGoalProgress current target <= lit 100 /\
  calculateGoalProgress (lit 50) (lit 100) = lit 50 /\
  calculateGoalProgress (lit 150) (lit 100) = lit 100 /\
  (forall x : number, calculateGoalProgress x 0 = 0).
Proof.
  intros Hc Ht. unfold calculateGoalProgress.
  split; [intros ->; by rewrite decide_True|].
  split.
  { intros Hne. rewrite decide_False by done.
    split; [apply Math_min_l|apply Math_min_r]. }
  split; [|split; [qc_eval|split; [qc_eval|intros x; by rewrite decide_True]]].
  case_decide as Hz; [split; [apply Qcle_refl|apply lit_100_nonneg]|].
  assert (0 < target) as Hpos.
  { destruct (Qcle_lt_or_eq _ _ Ht); [done|congruence]. }
  assert (0 <= current / target * lit 100) as Hq.
  { apply Qcmult_nonneg_nonneg; [by apply Qcdiv_nonneg_pos|apply lit_100_nonneg]. }
  unfold Math_min. case_decide as Hlt.
  - split; [apply lit_100_nonneg|apply Qcle_refl].
  - split; [done|by apply Qcnot_lt_le].
Qed.

Lemma calculateGoalProgress_clamped_witness :
  calculateGoalProgress (lit 30) (lit 40) = lit 75 /\
  0 <= calculateGoalProgress (lit 30) (lit 40) <= lit 100.
Proof.
  assert (0 <= lit 30) as Hc by qc_order.
  assert (0 <= lit 40) as Ht by qc_order.
  destruct (calculateGoalProgress_clamped (lit 30) (lit 40) Hc Ht)
    as (_ & Hne & Hb & _).
  split; [|exact Hb].
  destruct Hne as [Hl _]; [by apply lit_neq_0|].
  rewrite Hl; [qc_eval|qc_order].
Defined.

(** C3.  [calculateMonthsToGoal] returns [Infinity] when
    [monthlySavings = 0]; otherwise [0] when
    [targetAmount - currentAmount <= 0]; otherwise the ceiling of
    [(targetAmount - currentAmount) / monthlySavings], that is the integer
    [k] with [k - 1 < (targetAmount - currentAmount) / monthlySavings <= k].
    The three sample values are [Infinity], [0] and [4]. *)
Theorem calculateMonthsToGoal_cases (currentAmount targetAmount monthlySavings : number) :
  (monthlySavings = 0 ->
   calculateMonthsToGoal currentAmount targetAmount monthlySavings = Infinity) /\
  (monthlySavings <> 0 -> targetAmount - currentAmount <= 0 ->
   calculateMonthsToGoal currentAmount targetAmount monthlySavings = Finite 0) /\
  (monthlySavings <> 0 -> 0 < targetAmount - currentAmount ->
   exists k : Z,
     calculateMonthsToGoal currentAmount targetAmount monthlySavings
       = Finite (lit k) /\
     lit (k - 1) < (targetAmount - currentAmount) / monthlySavings /\
     (targetAmount - currentAmount) / monthlySavings <= lit k) /\
  calculateMonthsToGoal 0 (lit 1000) 0 = Infinity /\
  calculateMonthsToGoal (lit 1000) (lit 1000) (lit 100) = Finite 0 /\
  calculateMonthsToGoal 0 (lit 1000) (lit 250) = Finite (lit 4).
Proof.
  unfold calculateMonthsToGoal. cbv zeta.
  split; [intros ->; by rewrite decide_True|].
  split; [intros Hm Hr; by rewrite decide_False, decide_True|].
  split.
  { intros Hm Hr. rewrite decide_False by done.
    rewrite decide_False by (by apply Qclt_not_le).
    eexists. split; [reflexivity|]. apply Math_ceil_spec. }
  split; [reflexivity|]. split; reflexivity.
Qed.

Lemma calculateMonthsToGoal_cases_witness :
  calculateMonthsToGoal (lit 5) (lit 9) 0 = Infinity /\
  calculateMonthsToGoal (lit 9) (lit 5) (lit 2) = Finite 0 /\
  exists k : Z,
    calculateMonthsToGoal (lit 200) (lit 1000) (lit 300) = Finite (lit k) /\
    lit (k - 1) < (lit 1000 - lit 200) / lit 300 /\
    (lit 1000 - lit 200) / lit 300 <= lit k.
Proof.
  destruct (calculateMonthsToGoal_cases (lit 5) (lit 9) 0) as (H0 & _).
  destruct (calculateMonthsToGoal_cases (lit 9) (lit 5) (lit 2)) as (_ & H1 & _).
  destruct (calculateMonthsToGoal_cases (lit 200) (lit 1000) (lit 300))
    as (_ & _ & H2 & _).
  split; [by apply H0|].
  split; [apply H1; [by apply lit_neq_0|qc_order]|].
  apply H2; [by apply lit_neq_0|qc_order].
Defined.

(** ** Results composer *)


(** C5.  The result composed from per-month data lists the projections for
    the horizons 1, 3, 5 and 10 years, in that order and no others; each is
    paired with [saved = yearlySavings * years], where [yearlySavings] is
    the yearly savings target [monthlyIncome * savingsPercentage / 100 * 12]
    and involves no baseline; the breakdown is the one of the current
    month's entries and does not depend on the year's data. *)
Theorem calculateResultsFromMonthlyData_shape
  (currentMonthIncomes : list MonthlyIncome.t)
  (yearData : gmap Z (list MonthlyIncome.t))
  (currentSavings alreadySaved savingsPercentage : number) :
  let r := calculateResultsFromMonthlyData currentMonthIncomes yearData
             currentSavings alreadySaved savingsPercentage in
  map Projection.years (CalculationResults.projections r)
    = [lit 1; lit 3; lit 5; lit 10] /\
  Forall
    (fun p => Projection.saved p
              = CalculationResults.yearlySavings r * Projection.years p)
    (CalculationResults.projections r) /\
  CalculationResults.yearlySavings r
    = calculateMonthlyIncomeFromData currentMonthIncomes * savingsPercentage
      / lit 100 * lit 12 /\
  CalculationResults.incomeBreakdown r
    = calculateIncomeBreakdownFromData currentMonthIncomes /\
  forall (yearData' : gmap Z (list MonthlyIncome.t)) (cs' al' : number),
    CalculationResults.incomeBreakdown
      (calculateResultsFromMonthlyData currentMonthIncomes yearData'
         cs' al' savingsPercentage)
    = CalculationResults.incomeBreakdown r /\
    map Projection.saved
      (CalculationResults.projections
         (calculateResultsFromMonthlyData currentMonthIncomes yearData'
            cs' al' savingsPercentage))
    = map Projection.saved (CalculationResults.projections r).
Proof.
  cbv zeta. split; [reflexivity|]. split.
  { simpl. repeat constructor. }
  split; [reflexivity|]. split; [reflexivity|].
  intros yearData' cs' al'. split; reflexivity.
Qed.


(** ** Scenario generator *)

(** C9.  There is one scenario per candidate percentage, in the same
    order; the scenario at position [i] is computed from the percentage at
    position [i] alone: its [monthlySavings] and its 5- and 10-year
    projections are the savings formulas at that percentage, whatever the
    other percentages of the list are.  For the percentages 10 and 20, a
    monthly income of 5000 and an empty baseline, [monthlySavings] is 500
    and 1000 and [projection5Years] is 30000 and 60000. *)
Theorem createWhatIfScenarios_independent
  (monthlyIncome currentSavings alreadySaved : number)
  (percentages : list number) :
  length (createWhatIfScenarios monthlyIncome currentSavings alreadySaved
            (Some percentages)) = length percentages /\
  (forall (i : nat) (p : number),
     percentages !! i = Some p ->
     exists s : WhatIfScenario.t,
       createWhatIfScenarios monthlyIncome currentSavings alreadySaved
         (Some percentages) !! i = Some s /\
       WhatIfScenario.savingsPercentage s = p /\
       WhatIfScenario.monthlyIncome s = monthlyIncome /\
       WhatIfScenario.monthlySavings s = monthlyIncome * p / lit 100 /\
       WhatIfScenario.projection5Years s
         = currentSavings + alreadySaved
           + (monthlyIncome * p / lit 100 * lit 12) * lit 5 /\
       WhatIfScenario.projection10Years s
         = currentSavings + alreadySaved
           + (monthlyIncome * p / lit 100 * lit 12) * lit 10) /\
  map WhatIfScenario.monthlySavings
    (createWhatIfScenarios (lit 5000) 0 0 (Some [lit 10; lit 20]))
    = [lit 500; lit 1000] /\
  map WhatIfScenario.projection5Years
    (createWhatIfScenarios (lit 5000) 0 0 (Some [lit 10; lit 20]))
    = [lit 30000; lit 60000].
Proof.
  unfold createWhatIfScenarios. simpl default.
  split; [apply length_map|]. split.
  { intros i p Hp. eexists. split.
    - rewrite list_lookup_fmap, Hp. reflexivity.
    - repeat split. }
  split; simpl; repeat f_equal; qc_eval.
Qed.

Lemma createWhatIfScenarios_independent_witness :
  exists s : WhatIfScenario.t,
    createWhatIfScenarios (lit 4000) (lit 100) (lit 50)
      (Some [lit 15; lit 25; lit 5]) !! 1%nat = Some s /\
    WhatIfScenario.monthlySavings s = lit 1000 /\
    WhatIfScenario.projection5Years s = lit 60150.
Proof.
  destruct (createWhatIfScenarios_independent
              (lit 4000) (lit 100) (lit 50) [lit 15; lit 25; lit 5])
    as (_ & H & _).
  destruct (H 1%nat (lit 25) eq_refl) as (s & Hs & _ & _ & Hm & H5 & _).
  exists s. split; [exact Hs|].
  split; [rewrite Hm|rewrite H5]; qc_eval.
Defined.

(** ** Income aggregator *)

Lemma foldl_plus_sum {A : Type} (g : A -> number) (l : list A) (a : number) :
  foldl (fun total x => total + g x) a l = a + sum_numbers (map g l).
Proof.
  revert a. induction l as [|x l IH]; intros a; simpl.
  - ring.
  - rewrite IH. ring.
Qed.

Lemma calculateMonthlyIncome_sum (sources : list IncomeSource.t) :
  calculateMonthlyIncome sources =
  sum_numbers
    (map (fun s => convertToMonthly (IncomeSource.amount s)
                                    (IncomeSource.frequency s))
         (List.filter IncomeSource.isActive sources)).
Proof. unfold calculateMonthlyIncome. rewrite foldl_plus_sum. ring. Qed.

Lemma calculateMonthlyIncomeFromData_sum (monthlyIncomes : list MonthlyIncome.t) :
  calculateMonthlyIncomeFromData monthlyIncomes =
  sum_numbers
    (map MonthlyIncome.amount
         (List.filter MonthlyIncome.isActive monthlyIncomes)).
Proof. unfold calculateMonthlyIncomeFromData. rewrite foldl_plus_sum. ring. Qed.

Lemma filter_filter {A : Type} (f : A -> bool) (l : list A) :
  List.filter f (List.filter f l) = List.filter f l.
Proof.
  induction l as [|x l IH]; simpl; [done|].
  destruct (f x) eqn:Hx; simpl; [rewrite Hx|]; congruence.
Qed.

Lemma materialized_foldl (sources : list IncomeSource.t)
  (entries : list MonthlyIncome.t) :
  materialized sources entries ->
  forall a : number,
    foldl
      (fun total source =>
         total + convertToMonthly (IncomeSource.amount source)
                                  (IncomeSource.frequency source))
      a (List.filter IncomeSource.isActive sources)
    = foldl (fun total income => total + MonthlyIncome.amount income)
        a (List.filter MonthlyIncome.isActive entries).
Proof.
  induction 1 as [|s e ss es Hs He Ha _ IH|s e ss es Hs He _ IH|s ss es Hs _ IH];
    intros a; simpl.
  - reflexivity.
  - rewrite He, Hs. simpl. rewrite Ha. apply IH.
  - rewrite He, Hs. apply IH.
  - rewrite Hs. apply IH.
Qed.

(** C7.  When the entries are the materialization of the sources (an entry
    per active source, with the same active flag and the amount
    [convertToMonthly source.amount source.frequency]), the income
    aggregated from the sources equals the income aggregated from the
    entries. *)
Theorem calculateMonthlyIncome_materialized
  (sources : list IncomeSource.t) (entries : list MonthlyIncome.t) :
  materialized sources entries ->
  calculateMonthlyIncome sources = calculateMonthlyIncomeFromData entries.
Proof. intros H. apply (materialized_foldl _ _ H). Qed.

Lemma calculateMonthlyIncome_materialized_witness :
  calculateMonthlyIncome
    [ IncomeSource.mk "s1" "job" (lit 3000) "salary" "monthly" true;
      IncomeSource.mk "s2" "gig" (lit 90) "freelance" "weekly" false;
      IncomeSource.mk "s3" "fund" (lit 1200) "investment" "yearly" true ]
  = calculateMonthlyIncomeFromData
      [ MonthlyIncome.mk "m1" 2025 3 (Some "s1") (lit 3000) "job" "salary"
          true true;
        MonthlyIncome.mk "m3" 2025 3 (Some "s3") (lit 100) "fund" "investment"
          true true ].
Proof.
  apply calculateMonthlyIncome_materialized.
  apply materialized_active; [reflexivity|reflexivity|reflexivity|].
  apply materialized_skipped; [reflexivity|].
  apply materialized_active; [reflexivity|reflexivity|qc_eval|].
  apply materialized_nil.
Defined.

(** C8.  The yearly income from entries is the sum, over the months 1 to
    12, of the monthly aggregation of that month's entries; a month that
    the map does not have, or whose list of entries is empty, contributes
    [0]. *)
Theorem calculateYearlyIncomeFromData_sum
  (yearData : gmap Z (list MonthlyIncome.t)) :
  calculateYearlyIncomeFromData yearData
    = sum_numbers (map (monthTotal yearData) (seqZ 1 12)) /\
  forall month : Z,
    (yearData !! month = None \/ yearData !! month = Some []) ->
    monthTotal yearData month = 0.
Proof.
  split.
  - unfold calculateYearlyIncomeFromData. rewrite foldl_plus_sum.
    rewrite Qcplus_0_l. f_equal. apply map_ext. intros month.
    unfold monthTotal. by destruct (yearData !! month).
  - intros month [H|H]; unfold monthTotal; by rewrite H.
Qed.

Lemma calculateYearlyIncomeFromData_sum_witness :
  monthTotal
    {[ 2%Z := [ MonthlyIncome.mk "m" 2025 2 None (lit 40) "gift" "other"
                  true false ];
       5%Z := [] ]} 5 = 0 /\
  monthTotal
    {[ 2%Z := [ MonthlyIncome.mk "m" 2025 2 None (lit 40) "gift" "other"
                  true false ];
       5%Z := [] ]} 7 = 0 /\
  calculateYearlyIncomeFromData
    {[ 2%Z := [ MonthlyIncome.mk "m" 2025 2 None (lit 40) "gift" "other"
                  true false ];
       5%Z := [] ]} = lit 40.
Proof.
  set (yd := ({[ 2%Z := _ ; 5%Z := [] ]} : gmap Z (list MonthlyIncome.t))).
  destruct (calculateYearlyIncomeFromData_sum yd) as (Hsum & Hzero).
  split; [apply Hzero; right; reflexivity|].
  split; [apply Hzero; left; reflexivity|].
  rewrite Hsum. qc_eval.
Defined.

(** ** Breakdown aggregator *)


Section grouping.
Context {A : Type} (key : A -> string) (value : A -> number).


End grouping.






(** The two breakdown functions, as the grouping of their active records. *)
Lemma calculateIncomeBreakdown_eq (sources : list IncomeSource.t) :
  calculateIncomeBreakdown sources =
  map (toBreakdown (calculateMonthlyIncome sources))
    (foldl
       (group_step IncomeSource.type
          (fun s => convertToMonthly (IncomeSource.amount s)
                                     (IncomeSource.frequency s)))
       JsMap.empty (List.filter IncomeSource.isActive sources)).
Proof.
  unfold calculateIncomeBreakdown, calculateMonthlyIncome. cbv zeta.
  by rewrite filter_filter.
Qed.

Lemma calculateIncomeBreakdownFromData_eq (monthlyIncomes : list MonthlyIncome.t) :
  calculateIncomeBreakdownFromData monthlyIncomes =
  map (toBreakdown (calculateMonthlyIncomeFromData monthlyIncomes))
    (foldl (group_step MonthlyIncome.type MonthlyIncome.amount)
       JsMap.empty (List.filter MonthlyIncome.isActive monthlyIncomes)).
Proof.
  unfold calculateIncomeBreakdownFromData, calculateMonthlyIncomeFromData.
  cbv zeta. by rewrite filter_filter.
Qed.




(** The grouping on the end-to-end sample of the specification: categories
    come in the order of their first occurrence. *)
Example calculateIncomeBreakdown_sample :
  map (fun e => (Breakdown.type e, Breakdown.amount e))
    (calculateIncomeBreakdown
       [ IncomeSource.mk "s1" "job" (lit 3000) "salary" "monthly" true;
         IncomeSource.mk "s2" "fund" (lit 1200) "investment" "yearly" true;
         IncomeSource.mk "s3" "bonus" (lit 600) "salary" "yearly" true;
         IncomeSource.mk "s4" "old" (lit 70) "other" "weekly" false ])
  = [ ("salary", lit 3050); ("investment", lit 100) ].
Proof. simpl. repeat f_equal; qc_eval. Qed.

(** The data model has non-negative amounts; the monthly total is then
    non-negative, so the two cases of [percentages_ok], a positive total
    and a total of [0], are the only ones. *)
Lemma sum_numbers_nonneg (l : list number) :
  Forall (fun x => 0 <= x) l -> 0 <= sum_numbers l.
Proof.
  induction 1 as [|x l Hx _ IH]; simpl.
  - apply Qcle_refl.
  - by apply Qcplus_nonneg_nonneg.
Qed.

Lemma convertToMonthly_nonneg (a : number) (f : string) :
  0 <= a -> 0 <= convertToMonthly a f.
Proof.
  intros Ha. unfold convertToMonthly.
  assert (0 < lit 12) as H12 by qc_order.
  assert (0 <= lit 52) as H52 by qc_order.
  repeat case_match; try done; try apply Qcle_refl.
  - apply Qcdiv_nonneg_pos; [by apply Qcmult_nonneg_nonneg|done].
  - by apply Qcdiv_nonneg_pos.
Qed.

Lemma calculateMonthlyIncome_nonneg (sources : list IncomeSource.t) :
  Forall (fun s => 0 <= IncomeSource.amount s) sources ->
  0 <= calculateMonthlyIncome sources.
Proof.
  intros H. rewrite calculateMonthlyIncome_sum. apply sum_numbers_nonneg.
  induction H as [|s l Hs _ IH]; simpl; [constructor|].
  destruct (IncomeSource.isActive s); simpl; [|exact IH].
  constructor; [by apply convertToMonthly_nonneg|exact IH].
Qed.


(** * Further properties of the engine *)

(** ** Frequency normalizer: yearly equivalents *)



(** ** Income aggregator: what counts *)



(** ** Breakdown aggregator: the categories and their amounts *)

Lemma JsMap_get_set_eq {V : Type} (k : string) (v : V) (m : JsMap.t) :
  JsMap.get k (JsMap.set k v m) = Some v.
Proof.
  induction m as [|[k' v'] m IH]; simpl.
  - by rewrite decide_True.
  - case_decide as Hk; simpl; [by rewrite decide_True|by rewrite decide_False].
Qed.

Lemma JsMap_get_set_ne {V : Type} (k k' : string) (v : V) (m : JsMap.t) :
  k <> k' -> JsMap.get k' (JsMap.set k v m) = JsMap.get k' m.
Proof.
  intros Hne. induction m as [|[k0 v0] m IH]; simpl.
  - by rewrite decide_False.
  - case_decide as Hk; simpl.
    + subst k0. by rewrite !decide_False.
    + case_decide; [done|exact IH].
Qed.

Lemma JsMap_set_keys {V : Type} (k : string) (v : V) (m : JsMap.t) :
  map fst (JsMap.set k v m)
  = if decide (k ∈ map fst m) then map fst m else map fst m ++ [k].
Proof.
  induction m as [|[k' v'] m IH]; [reflexivity|].
  cbn [JsMap.set]. destruct (decide (k' = k)) as [->|Hk]; cbn [map fst].
  - rewrite decide_True; [done|]. apply list_elem_of_here.
  - rewrite IH. destruct (decide (k ∈ map fst m)) as [Hin|Hin].
    + rewrite decide_True; [done|]. by apply list_elem_of_further.
    + rewrite decide_False; [done|].
      intros [?|?]%elem_of_cons; congruence.
Qed.

Lemma JsMap_get_elem {V : Type} (k : string) (v : V) (m : JsMap.t) :
  NoDup (map fst m) -> (k, v) ∈ m -> JsMap.get k m = Some v.
Proof.
  induction m as [|[k' v'] m IH]; simpl; intros Hnd Hin.
  - by apply elem_of_nil in Hin.
  - apply NoDup_cons in Hnd as [Hk' Hnd].
    apply elem_of_cons in Hin as [Heq|Hin].
    + injection Heq as -> ->. by rewrite decide_True.
    + case_decide as Hk; [|by apply IH].
      subst k'. exfalso. apply Hk'.
      apply list_elem_of_fmap. by exists (k, v).
Qed.

Lemma add_keys_NoDup (l seen : list string) :
  NoDup seen -> NoDup (foldl add_key seen l).
Proof.
  revert seen. induction l as [|k l IH]; intros seen Hnd; simpl; [done|].
  apply IH. unfold add_key. case_decide as Hin; [done|].
  apply NoDup_app. split; [done|]. split; [|apply NoDup_singleton].
  intros x Hx ->%list_elem_of_singleton. done.
Qed.

Lemma add_keys_elem (k : string) (l seen : list string) :
  k ∈ foldl add_key seen l <-> k ∈ seen \/ k ∈ l.
Proof.
  revert seen. induction l as [|k' l IH]; intros seen; simpl.
  - split; [by left|]. intros [?|Hn]; [done|]. by apply elem_of_nil in Hn.
  - rewrite IH. unfold add_key. rewrite elem_of_cons.
    case_decide as Hin.
    + split; [tauto|]. intros [?|[->|?]]; tauto.
    + rewrite elem_of_app, list_elem_of_singleton. tauto.
Qed.

Lemma filter_comm {A : Type} (f g : A -> bool) (l : list A) :
  List.filter f (List.filter g l) = List.filter g (List.filter f l).
Proof.
  induction l as [|x l IH]; simpl; [done|].
  destruct (f x) eqn:Hf, (g x) eqn:Hg; simpl; rewrite ?Hf, ?Hg; congruence.
Qed.

Section grouped.
Context {A : Type} (key : A -> string) (value : A -> number).

Lemma group_keys (l : list A) (m : JsMap.t) :
  map fst (foldl (group_step key value) m l)
  = foldl add_key (map fst m) (map key l).
Proof.
  revert m. induction l as [|x l IH]; intros m; simpl; [done|].
  rewrite IH. unfold group_step. by rewrite JsMap_set_keys.
Qed.

Lemma group_get (k : string) (l : list A) (m : JsMap.t) :
  or_zero (JsMap.get k (foldl (group_step key value) m l))
  = foldl (fun total x => total + value x)
      (or_zero (JsMap.get k m))
      (List.filter (fun x => String.eqb (key x) k) l).
Proof.
  revert m. induction l as [|x l IH]; intros m; simpl; [done|].
  rewrite IH. unfold group_step.
  destruct (String.eqb_spec (key x) k) as [->|Hne]; simpl.
  - rewrite JsMap_get_set_eq. f_equal.
    rewrite (or_zero_default (Some _)). reflexivity.
  - by rewrite JsMap_get_set_ne.
Qed.

(** The entries of a grouping started from the empty map: distinct keys
    in the order of first occurrence, each with the total of its records. *)
Lemma group_entries (l : list A) (k : string) (v : number) :
  (k, v) ∈ foldl (group_step key value) JsMap.empty l ->
  v = foldl (fun total x => total + value x) 0
        (List.filter (fun x => String.eqb (key x) k) l).
Proof.
  intros Hin.
  pose proof (group_get k l JsMap.empty) as Hget.
  rewrite (JsMap_get_elem k v) in Hget; [| |done].
  - rewrite or_zero_default in Hget. exact Hget.
  - rewrite group_keys. apply add_keys_NoDup, NoDup_nil_2.
Qed.

End grouped.

Lemma toBreakdown_types (total : number) (m : list (string * number)) :
  map Breakdown.type (map (toBreakdown total) m) = map fst m.
Proof. induction m as [|[k v] m IH]; simpl; congruence. Qed.

Lemma toBreakdown_elem (total : number) (m : list (string * number))
  (e : Breakdown.t) :
  e ∈ map (toBreakdown total) m ->
  (Breakdown.type e, Breakdown.amount e) ∈ m /\
  Breakdown.percentage e = percentageOf total (Breakdown.amount e).
Proof.
  intros ([k v] & -> & Hin)%list_elem_of_fmap. by split.
Qed.

(** The categories of a grouping: those of the records, each once, in the
    order of first occurrence. *)
Lemma group_types {A : Type} (key : A -> string) (value : A -> number)
  (total : number) (l : list A) :
  let b := map (toBreakdown total)
             (foldl (group_step key value) JsMap.empty l) in
  map Breakdown.type b = first_occurrences (map key l) /\
  NoDup (map Breakdown.type b) /\
  (forall t : string, t ∈ map Breakdown.type b <-> exists x, x ∈ l /\ key x = t).
Proof.
  cbv zeta. rewrite toBreakdown_types, group_keys. simpl map at 2.
  split; [reflexivity|]. split; [apply add_keys_NoDup, NoDup_nil_2|].
  intros t. rewrite add_keys_elem. split.
  - intros [Hn|Hin]; [by apply elem_of_nil in Hn|].
    apply list_elem_of_fmap in Hin as (x & -> & Hx). eauto.
  - intros (x & Hx & <-). right. apply list_elem_of_fmap. eauto.
Qed.

Lemma elem_of_filter_bool {A : Type} (f : A -> bool) (l : list A) (x : A) :
  x ∈ List.filter f l <-> x ∈ l /\ f x = true.
Proof. rewrite !list_elem_of_In. apply filter_In. Qed.

(** X3.  The categories of a breakdown, for both aggregators: the list of
    categories is the list of the categories of the active records, each
    taken once, in the order of first occurrence.  So no category is
    listed twice, a category is listed exactly when an active record has
    it, and the breakdown is empty exactly when there is no active
    record. *)
Theorem breakdown_categories
  (sources : list IncomeSource.t) (monthlyIncomes : list MonthlyIncome.t) :
  (map Breakdown.type (calculateIncomeBreakdown sources)
     = first_occurrences
         (map IncomeSource.type (List.filter IncomeSource.isActive sources)) /\
   NoDup (map Breakdown.type (calculateIncomeBreakdown sources)) /\
   (forall t : string,
      t ∈ map Breakdown.type (calculateIncomeBreakdown sources) <->
      exists s, s ∈ sources /\ IncomeSource.isActive s = true /\
                IncomeSource.type s = t) /\
   (calculateIncomeBreakdown sources = [] <->
    List.filter IncomeSource.isActive sources = [])) /\
  (map Breakdown.type (calculateIncomeBreakdownFromData monthlyIncomes)
     = first_occurrences
         (map MonthlyIncome.type
            (List.filter MonthlyIncome.isActive monthlyIncomes)) /\
   NoDup (map Breakdown.type (calculateIncomeBreakdownFromData monthlyIncomes)) /\
   (forall t : string,
      t ∈ map Breakdown.type (calculateIncomeBreakdownFromData monthlyIncomes) <->
      exists i, i ∈ monthlyIncomes /\ MonthlyIncome.isActive i = true /\
                MonthlyIncome.type i = t) /\
   (calculateIncomeBreakdownFromData monthlyIncomes = [] <->
    List.filter MonthlyIncome.isActive monthlyIncomes = [])).
Proof.
  split.
  - rewrite calculateIncomeBreakdown_eq.
    destruct (group_types IncomeSource.type
                (fun s => convertToMonthly (IncomeSource.amount s)
                                           (IncomeSource.frequency s))
                (calculateMonthlyIncome sources)
                (List.filter IncomeSource.isActive sources)) as (Hl & Hnd & Hin).
    split; [exact Hl|]. split; [exact Hnd|]. split.
    + intros t. rewrite Hin. split.
      * intros (s & [Hs Ha]%elem_of_filter_bool & Ht). eauto.
      * intros (s & Hs & Ha & Ht). exists s. by rewrite elem_of_filter_bool.
    + split.
      * intros Hb. destruct (List.filter IncomeSource.isActive sources)
          as [|s l] eqn:Hf; [done|].
        assert (IncomeSource.type s ∈ @nil string) as Hn; [|by apply elem_of_nil in Hn].
        rewrite Hb in Hin. apply Hin. exists s. split; [apply list_elem_of_here|done].
      * by intros ->.
  - rewrite calculateIncomeBreakdownFromData_eq.
    destruct (group_types MonthlyIncome.type MonthlyIncome.amount
                (calculateMonthlyIncomeFromData monthlyIncomes)
                (List.filter MonthlyIncome.isActive monthlyIncomes))
      as (Hl & Hnd & Hin).
    split; [exact Hl|]. split; [exact Hnd|]. split.
    + intros t. rewrite Hin. split.
      * intros (s & [Hs Ha]%elem_of_filter_bool & Ht). eauto.
      * intros (s & Hs & Ha & Ht). exists s. by rewrite elem_of_filter_bool.
    + split.
      * intros Hb. destruct (List.filter MonthlyIncome.isActive monthlyIncomes)
          as [|s l] eqn:Hf; [done|].
        assert (MonthlyIncome.type s ∈ @nil string) as Hn; [|by apply elem_of_nil in Hn].
        rewrite Hb in Hin. apply Hin. exists s. split; [apply list_elem_of_here|done].
      * by intros ->.
Qed.

(** X4.  The amount of a category of a breakdown is the monthly income of
    the records of that category alone, for both aggregators. *)
Theorem breakdown_amount_by_category
  (sources : list IncomeSource.t) (monthlyIncomes : list MonthlyIncome.t) :
  (forall e : Breakdown.t,
     e ∈ calculateIncomeBreakdown sources ->
     Breakdown.amount e
     = calculateMonthlyIncome
         (List.filter
            (fun s => String.eqb (IncomeSource.type s) (Breakdown.type e))
            sources)) /\
  (forall e : Breakdown.t,
     e ∈ calculateIncomeBreakdownFromData monthlyIncomes ->
     Breakdown.amount e
     = calculateMonthlyIncomeFromData
         (List.filter
            (fun i => String.eqb (MonthlyIncome.type i) (Breakdown.type e))
            monthlyIncomes)).
Proof.
  split; intros e He.
  - rewrite calculateIncomeBreakdown_eq in He.
    apply toBreakdown_elem in He as [He _].
    apply group_entries in He. rewrite He.
    unfold calculateMonthlyIncome. by rewrite filter_comm.
  - rewrite calculateIncomeBreakdownFromData_eq in He.
    apply toBreakdown_elem in He as [He _].
    apply group_entries in He. rewrite He.
    unfold calculateMonthlyIncomeFromData. by rewrite filter_comm.
Qed.

Lemma breakdown_amount_by_category_witness :
  Forall
    (fun e =>
       Breakdown.amount e
       = calculateMonthlyIncome
           (List.filter
              (fun s => String.eqb (IncomeSource.type s) (Breakdown.type e))
              [ IncomeSource.mk "s1" "job" (lit 3000) "salary" "monthly" true;
                IncomeSource.mk "s2" "fund" (lit 1200) "investment" "yearly" true;
                IncomeSource.mk "s3" "bonus" (lit 600) "salary" "yearly" true ]))
    (calculateIncomeBreakdown
       [ IncomeSource.mk "s1" "job" (lit 3000) "salary" "monthly" true;
         IncomeSource.mk "s2" "fund" (lit 1200) "investment" "yearly" true;
         IncomeSource.mk "s3" "bonus" (lit 600) "salary" "yearly" true ]).
Proof.
  apply Forall_forall. intros e He.
  by apply (breakdown_amount_by_category _ []).
Defined.

(** ** Breakdown aggregator: bounds *)

Lemma sum_filter_bounds {A : Type} (g : A -> number) (f : A -> bool)
  (l : list A) :
  Forall (fun x => 0 <= g x) l ->
  0 <= sum_numbers (map g (List.filter f l)) <= sum_numbers (map g l).
Proof.
  induction 1 as [|x l Hx _ [IH0 IH1]]; simpl.
  - split; apply Qcle_refl.
  - destruct (f x); simpl.
    + split; [by apply Qcplus_nonneg_nonneg|by apply Qcplus_le_mono_l].
    + split; [done|].
      apply Qcle_trans with (0 + sum_numbers (map g l)).
      * by rewrite Qcplus_0_l.
      * by apply Qcplus_le_mono_r.
Qed.

Lemma percentageOf_bounds (total a : number) :
  0 <= a -> a <= total -> 0 <= percentageOf total a <= lit 100.
Proof.
  intros Ha Hat. pose proof lit_100_nonneg as H100.
  unfold percentageOf. case_decide as Hpos; [|split; [apply Qcle_refl|done]].
  assert (0 <= / total) as Hinv by (by apply Qclt_le_weak, Qcinv_pos).
  split.
  - apply Qcmult_nonneg_nonneg; [by apply Qcdiv_nonneg_pos|done].
  - apply Qcle_trans with (1 * lit 100); [|by rewrite Qcmult_1_l].
    apply Qcmult_le_mono_nonneg_r; [done|].
    rewrite <- (Qcmult_inv_r total) by (by apply Qc_pos_neq_0).
    unfold Qcdiv. by apply Qcmult_le_mono_nonneg_r.
Qed.

Lemma group_bounds {A : Type} (key : A -> string) (value : A -> number)
  (l : list A) (e : Breakdown.t) :
  Forall (fun x => 0 <= value x) l ->
  e ∈ map (toBreakdown (sum_numbers (map value l)))
        (foldl (group_step key value) JsMap.empty l) ->
  0 <= Breakdown.amount e <= sum_numbers (map value l) /\
  0 <= Breakdown.percentage e <= lit 100.
Proof.
  intros Hl He. apply toBreakdown_elem in He as [He Hp].
  apply group_entries in He. rewrite foldl_plus_sum, Qcplus_0_l in He.
  assert (0 <= Breakdown.amount e <= sum_numbers (map value l)) as Ha.
  { rewrite He. by apply sum_filter_bounds. }
  split; [exact Ha|]. rewrite Hp. destruct Ha. by apply percentageOf_bounds.
Qed.

(** X5.  When no record has a negative amount, every category of a
    breakdown has an amount between [0] and the monthly total and a
    percentage between [0] and [100], for both aggregators. *)
Theorem breakdown_bounds
  (sources : list IncomeSource.t) (monthlyIncomes : list MonthlyIncome.t) :
  (Forall (fun s => 0 <= IncomeSource.amount s) sources ->
   Forall
     (fun e => 0 <= Breakdown.amount e <= calculateMonthlyIncome sources /\
               0 <= Breakdown.percentage e <= lit 100)
     (calculateIncomeBreakdown sources)) /\
  (Forall (fun i => 0 <= MonthlyIncome.amount i) monthlyIncomes ->
   Forall
     (fun e => 0 <= Breakdown.amount e
               <= calculateMonthlyIncomeFromData monthlyIncomes /\
               0 <= Breakdown.percentage e <= lit 100)
     (calculateIncomeBreakdownFromData monthlyIncomes)).
Proof.
  split; intros Hnn; apply Forall_forall; intros e He.
  - rewrite calculateIncomeBreakdown_eq, calculateMonthlyIncome_sum in He.
    rewrite calculateMonthlyIncome_sum.
    apply (group_bounds _ _ _ _) in He; [done|].
    apply Forall_forall. intros s [Hs _]%elem_of_filter_bool.
    apply convertToMonthly_nonneg. by apply (proj1 (Forall_forall _ _) Hnn).
  - rewrite calculateIncomeBreakdownFromData_eq,
      calculateMonthlyIncomeFromData_sum in He.
    rewrite calculateMonthlyIncomeFromData_sum.
    apply (group_bounds _ _ _ _) in He; [done|].
    apply Forall_forall. intros i [Hi _]%elem_of_filter_bool.
    by apply (proj1 (Forall_forall _ _) Hnn).
Qed.

Lemma breakdown_bounds_witness :
  Forall
    (fun e => 0 <= Breakdown.amount e
              <= calculateMonthlyIncomeFromData
                   [ MonthlyIncome.mk "m1" 2025 3 None (lit 80) "refund" "other"
                       true false;
                     MonthlyIncome.mk "m2" 2025 3 None (lit 20) "tip" "passive"
                       true false ] /\
              0 <= Breakdown.percentage e <= lit 100)
    (calculateIncomeBreakdownFromData
       [ MonthlyIncome.mk "m1" 2025 3 None (lit 80) "refund" "other" true false;
         MonthlyIncome.mk "m2" 2025 3 None (lit 20) "tip" "passive" true
           false ]).
Proof.
  apply (breakdown_bounds []).
  repeat constructor; qc_order.
Defined.

(** ** The two modes of the composer *)






(** ** Savings calculator: bounds and monotonicity *)

Lemma lit_pos (z : Z) : (0 < z)%Z -> 0 < lit z.
Proof. intros Hz. unfold Qclt, lit. simpl. unfold Qlt. simpl. lia. Qed.

Lemma lit_nonneg (z : Z) : (0 <= z)%Z -> 0 <= lit z.
Proof. intros Hz. unfold Qcle, lit. simpl. unfold Qle. simpl. lia. Qed.

Lemma Qcdiv_le_mono_pos (x y z : number) : 0 < z -> x <= y -> x / z <= y / z.
Proof.
  intros Hz Hxy. unfold Qcdiv.
  apply Qcmult_le_mono_nonneg_r; [|done]. by apply Qclt_le_weak, Qcinv_pos.
Qed.

Lemma calculateMonthlySavings_mono (mi mi' p p' : number) :
  0 <= mi -> mi <= mi' -> 0 <= p -> p <= p' ->
  0 <= calculateMonthlySavings mi p
  /\ calculateMonthlySavings mi p <= calculateMonthlySavings mi' p'.
Proof.
  intros Hmi Hmi' Hp Hp'. unfold calculateMonthlySavings.
  assert (0 < lit 100) as H100 by (by apply lit_pos).
  split.
  - apply Qcdiv_nonneg_pos; [by apply Qcmult_nonneg_nonneg|done].
  - apply Qcdiv_le_mono_pos; [done|].
    apply Qcle_trans with (mi * p').
    + by apply Qcmult_le_mono_nonneg_l.
    + apply Qcmult_le_mono_nonneg_r; [|done]. by apply Qcle_trans with p.
Qed.

Lemma calculateYearlySavings_mono (mi mi' p p' : number) :
  0 <= mi -> mi <= mi' -> 0 <= p -> p <= p' ->
  0 <= calculateYearlySavings mi p
  /\ calculateYearlySavings mi p <= calculateYearlySavings mi' p'.
Proof.
  intros Hmi Hmi' Hp Hp'. unfold calculateYearlySavings.
  destruct (calculateMonthlySavings_mono mi mi' p p') as [H0 Hle]; [done..|].
  assert (0 <= lit 12) as H12 by (by apply lit_nonneg).
  split; [by apply Qcmult_nonneg_nonneg|by apply Qcmult_le_mono_nonneg_r].
Qed.



Lemma calculateSavingsProjection_le
  (cs al mi mi' p p' years years' : number) :
  0 <= mi -> mi <= mi' -> 0 <= p -> p <= p' -> 0 <= years -> years <= years' ->
  cs + al <= calculateSavingsProjection cs al mi p years /\
  calculateSavingsProjection cs al mi p years
    <= calculateSavingsProjection cs al mi' p' years'.
Proof.
  intros Hmi Hmi' Hp Hp' Hy Hy'. unfold calculateSavingsProjection. cbv zeta.
  destruct (calculateYearlySavings_mono mi mi' p p') as [H0 Hle]; [done..|].
  split.
  - rewrite <- (Qcplus_0_r (cs + al)) at 1. apply Qcplus_le_mono_l.
    by apply Qcmult_nonneg_nonneg.
  - apply Qcplus_le_mono_l.
    apply Qcle_trans with (calculateYearlySavings mi p * years').
    + by apply Qcmult_le_mono_nonneg_l.
    + apply Qcmult_le_mono_nonneg_r; [|done]. by apply Qcle_trans with years.
Qed.



(** ** Scenario generator and composer *)



(** X10.  Each scenario records the percentage it was computed for, so the
    list of scenarios lists the given percentages in order, and the six
    default percentages when none are given.  For a non-negative income, a
    larger percentage never gives smaller monthly savings or smaller
    projections. *)
Theorem createWhatIfScenarios_percentages
  (monthlyIncome currentSavings alreadySaved : number)
  (percentages : list number) :
  map WhatIfScenario.savingsPercentage
    (createWhatIfScenarios monthlyIncome currentSavings alreadySaved
       (Some percentages)) = percentages /\
  map WhatIfScenario.savingsPercentage
    (createWhatIfScenarios monthlyIncome currentSavings alreadySaved None)
  = [lit 10; lit 15; lit 20; lit 30; lit 40; lit 50] /\
  (0 <= monthlyIncome ->
   forall p p' : number,
     0 <= p -> p <= p' ->
     let s := createWhatIfScenario monthlyIncome p currentSavings alreadySaved in
     let s' := createWhatIfScenario monthlyIncome p' currentSavings alreadySaved in
     WhatIfScenario.monthlySavings s <= WhatIfScenario.monthlySavings s' /\
     WhatIfScenario.projection5Years s <= WhatIfScenario.projection5Years s' /\
     WhatIfScenario.projection10Years s <= WhatIfScenario.projection10Years s').
Proof.
  split.
  { unfold createWhatIfScenarios. simpl default. rewrite map_map. simpl.
    apply map_id. }
  split; [reflexivity|].
  intros Hmi p p' Hp Hpp'. cbv zeta. simpl.
  split; [|split].
  - by apply calculateMonthlySavings_mono; [|apply Qcle_refl|..].
  - by apply calculateSavingsProjection_le;
      [|apply Qcle_refl|..|apply lit_nonneg|apply Qcle_refl].
  - by apply calculateSavingsProjection_le;
      [|apply Qcle_refl|..|apply lit_nonneg|apply Qcle_refl].
Qed.

Lemma createWhatIfScenarios_percentages_witness :
  WhatIfScenario.monthlySavings
    (createWhatIfScenario (lit 2000) (lit 10) (lit 5) (lit 1))
  <= WhatIfScenario.monthlySavings
       (createWhatIfScenario (lit 2000) (lit 25) (lit 5) (lit 1)) /\
  WhatIfScenario.projection5Years
    (createWhatIfScenario (lit 2000) (lit 10) (lit 5) (lit 1))
  <= WhatIfScenario.projection5Years
       (createWhatIfScenario (lit 2000) (lit 25) (lit 5) (lit 1)) /\
  WhatIfScenario.projection10Years
    (createWhatIfScenario (lit 2000) (lit 10) (lit 5) (lit 1))
  <= WhatIfScenario.projection10Years
       (createWhatIfScenario (lit 2000) (lit 25) (lit 5) (lit 1)).
Proof.
  destruct (createWhatIfScenarios_percentages (lit 2000) (lit 5) (lit 1) [])
    as (_ & _ & H).
  apply H; qc_order.
Defined.

(** ** Goal progress calculator: all inputs *)

Lemma Qcdiv_mult_cancel (x y : number) : y <> 0 -> x / y * y = x.
Proof. intros Hy. by field. Qed.

Lemma calculateGoalProgress_le_100 (current target : number) :
  calculateGoalProgress current target <= lit 100.
Proof.
  unfold calculateGoalProgress, Math_min.
  case_decide; [apply lit_100_nonneg|].
  case_decide as Hlt; [apply Qcle_refl|by apply Qcnot_lt_le].
Qed.

Lemma calculateGoalProgress_full (current target : number) :
  0 < target ->
  calculateGoalProgress current target = lit 100 <-> target <= current.
Proof.
  intros Ht. pose proof (Qc_pos_neq_0 _ Ht) as Hne.
  assert (0 < lit 100) as H100 by (by apply lit_pos).
  assert (lit 100 <= current / target * lit 100 <-> target <= current) as Hq.
  { trans (1 <= current / target).
    - symmetry. rewrite (Qcmult_le_mono_pos_r 1 _ (lit 100) H100).
      by rewrite Qcmult_1_l.
    - rewrite (Qcmult_le_mono_pos_r 1 _ target Ht).
      by rewrite Qcmult_1_l, Qcdiv_mult_cancel. }
  unfold calculateGoalProgress. rewrite decide_False by done.
  rewrite <- Hq. unfold Math_min. case_decide as Hlt.
  - split; [intros _; by apply Qclt_le_weak|done].
  - split; [by intros ->; apply Qcle_refl|].
    intros Hle. apply Qcle_antisym; [by apply Qcnot_lt_le|done].
Qed.

(** X11.  For all inputs, also negative ones, the progress never exceeds
    [100], so clamping it at [100] again, as the goals page does for the
    width of its bar, changes nothing.  For a positive target the progress
    is [100] exactly when the current amount has reached the target, and
    it is negative exactly when the current amount is negative. *)
Theorem calculateGoalProgress_range (current target : number) :
  calculateGoalProgress current target <= lit 100 /\
  Math_min (calculateGoalProgress current target) (lit 100)
  = calculateGoalProgress current target /\
  (0 < target ->
   (calculateGoalProgress current target = lit 100 <-> target <= current) /\
   (calculateGoalProgress current target < 0 <-> current < 0)).
Proof.
  pose proof (calculateGoalProgress_le_100 current target) as Hle.
  split; [exact Hle|]. split; [by apply Math_min_l|].
  intros Ht. split; [by apply calculateGoalProgress_full|].
  pose proof (Qc_pos_neq_0 _ Ht) as Hne.
  assert (0 < lit 100) as H100 by (by apply lit_pos).
  assert (current / target * lit 100 < 0 <-> current < 0) as Hq.
  { trans (current / target < 0).
    - symmetry. rewrite (Qcmult_lt_mono_pos_r _ 0 (lit 100) H100).
      by rewrite Qcmult_0_l.
    - rewrite (Qcmult_lt_mono_pos_r _ 0 target Ht).
      by rewrite Qcmult_0_l, Qcdiv_mult_cancel. }
  unfold calculateGoalProgress. rewrite decide_False by done.
  rewrite <- Hq. unfold Math_min. case_decide as Hlt; [|done].
  split.
  - intros Hneg. exfalso. apply (Qclt_not_le _ _ Hneg). by apply Qclt_le_weak.
  - intros Hneg. exfalso. apply (Qclt_not_le _ _ Hlt).
    apply Qclt_le_weak, Qclt_trans with 0; done.
Qed.

Lemma calculateGoalProgress_range_witness :
  (calculateGoalProgress (lit 120) (lit 80) = lit 100 <-> lit 80 <= lit 120) /\
  (calculateGoalProgress (lit (-20)) (lit 80) < 0 <-> lit (-20) < 0).
Proof.
  destruct (calculateGoalProgress_range (lit 120) (lit 80)) as (_ & _ & H1).
  destruct (calculateGoalProgress_range (lit (-20)) (lit 80)) as (_ & _ & H2).
  split; [apply H1; qc_order|apply H2; qc_order].
Defined.

(** ** Months to goal *)

Lemma lit_le (a b : Z) : lit a <= lit b <-> (a <= b)%Z.
Proof. unfold Qcle, lit. simpl. by rewrite <- Zle_Qle. Qed.

Lemma lit_lt (a b : Z) : lit a < lit b <-> (a < b)%Z.
Proof. unfold Qclt, lit. simpl. by rewrite <- Zlt_Qlt. Qed.

Lemma calculateMonthsToGoal_unmet
  (currentAmount targetAmount monthlySavings : number) :
  monthlySavings <> 0 -> currentAmount < targetAmount ->
  let q := (targetAmount - currentAmount) / monthlySavings in
  calculateMonthsToGoal currentAmount targetAmount monthlySavings
    = Finite (lit (Qceiling q)) /\
  lit (Qceiling q - 1) < q /\ q <= lit (Qceiling q).
Proof.
  intros Hm Hlt. cbv zeta. unfold calculateMonthsToGoal. cbv zeta.
  rewrite decide_False by done. rewrite decide_False.
  - split; [reflexivity|apply Math_ceil_spec].
  - apply Qclt_not_le. by apply Qclt_minus_iff in Hlt.
Qed.



(** X13.  With positive monthly savings and a positive target, no months
    are left exactly when the progress is [100]: the two goal figures
    agree on whether the goal is met. *)
Theorem goal_met_agreement
  (currentAmount targetAmount monthlySavings : number) :
  0 < monthlySavings -> 0 < targetAmount ->
  calculateMonthsToGoal currentAmount targetAmount monthlySavings = Finite 0
  <-> calculateGoalProgress currentAmount targetAmount = lit 100.
Proof.
  intros Hm Ht. rewrite calculateGoalProgress_full by done.
  pose proof (Qc_pos_neq_0 _ Hm) as Hne.
  destruct (Qclt_le_dec currentAmount targetAmount) as [Hlt|Hge].
  - split.
    + intros H0.
      destruct (calculateMonthsToGoal_unmet currentAmount targetAmount
                  monthlySavings Hne Hlt) as (Hk & _ & Hhi).
      exfalso.
      set (q := (targetAmount - currentAmount) / monthlySavings) in *.
      assert (lit 0 = lit (Qceiling q)) as Hz by (rewrite lit_0; congruence).
      apply lit_inj in Hz.
      assert (0 < q) as Hqpos.
      { rewrite (Qcmult_lt_mono_pos_r _ _ monthlySavings Hm), Qcmult_0_l.
        unfold q. rewrite Qcdiv_mult_cancel by done.
        by apply Qclt_minus_iff in Hlt. }
      rewrite <- lit_0 in Hqpos.
      assert (lit 0 < lit (Qceiling q)) as Hc
        by (by apply Qclt_le_trans with q).
      apply (proj1 (lit_lt _ _)) in Hc. lia.
    + intros Hge. exfalso. by apply (Qclt_not_le _ _ Hlt).
  - split; [done|]. intros _. unfold calculateMonthsToGoal. cbv zeta.
    rewrite decide_False by done. rewrite decide_True; [done|].
    apply Qcle_minus_iff in Hge.
    apply Qcopp_le_compat in Hge.
    replace (- (currentAmount + - targetAmount))
      with (targetAmount - currentAmount) in Hge by ring.
    replace (- 0) with 0 in Hge by ring. exact Hge.
Qed.

Lemma goal_met_agreement_witness :
  calculateMonthsToGoal (lit 900) (lit 600) (lit 50) = Finite 0
  <-> calculateGoalProgress (lit 900) (lit 600) = lit 100.
Proof.
  apply goal_met_agreement; qc_order.
Defined.

(** X14.  With negative monthly savings and a goal that is not yet met,
    the result is not [Infinity] but a whole number of months that is
    zero or negative. *)
Theorem calculateMonthsToGoal_negative_savings
  (currentAmount targetAmount monthlySavings : number) :
  monthlySavings < 0 -> currentAmount < targetAmount ->
  exists k : Z,
    calculateMonthsToGoal currentAmount targetAmount monthlySavings
      = Finite (lit k) /\ (k <= 0)%Z.
Proof.
  intros Hm Hlt.
  assert (monthlySavings <> 0) as Hne.
  { intros ->. by apply (Qclt_not_eq 0 0). }
  destruct (calculateMonthsToGoal_unmet currentAmount targetAmount
              monthlySavings Hne Hlt) as (Hk & Hlo & _).
  set (q := (targetAmount - currentAmount) / monthlySavings) in *.
  exists (Qceiling q). split; [exact Hk|].
  assert (q < 0) as Hq.
  { assert (0 < - monthlySavings) as Hpos.
    { apply Qclt_minus_iff in Hm. by rewrite Qcplus_0_l in Hm. }
    rewrite (Qcmult_lt_mono_pos_r _ _ (- monthlySavings) Hpos), Qcmult_0_l.
    replace (q * - monthlySavings) with (- (q * monthlySavings)) by ring.
    unfold q. rewrite Qcdiv_mult_cancel by done.
    apply Qclt_minus_iff in Hlt.
    apply Qclt_minus_iff. rewrite Qcopp_involutive, Qcplus_0_l. exact Hlt. }
  assert (lit (Qceiling q - 1) < lit 0) as Hc.
  { rewrite lit_0. by apply Qclt_trans with q. }
  apply (proj1 (lit_lt _ _)) in Hc. lia.
Qed.

Lemma calculateMonthsToGoal_negative_savings_witness :
  exists k : Z,
    calculateMonthsToGoal 0 (lit 1000) (lit (-300)) = Finite (lit k) /\
    (k <= 0)%Z.
Proof.
  apply calculateMonthsToGoal_negative_savings; qc_order.
Defined.

(** * Properties of the pages *)

(** ** Month totals *)

(** X15.  The month total of the "Monthly Income" page is the engine's
    monthly aggregation of that month's entries, and the twelve month
    totals of a year add up to the engine's yearly income from the same
    data. *)
Theorem calculateMonthTotal_yearly
  (monthlyData : gmap Z (list MonthlyIncome.t)) :
  (forall month : Z,
     MonthlyIncomePage.calculateMonthTotal monthlyData month
     = calculateMonthlyIncomeFromData (default [] (monthlyData !! month))) /\
  sum_numbers
    (map (MonthlyIncomePage.calculateMonthTotal monthlyData) (seqZ 1 12))
  = calculateYearlyIncomeFromData monthlyData.
Proof.
  split; [reflexivity|].
  unfold calculateYearlyIncomeFromData. rewrite foldl_plus_sum.
  by rewrite Qcplus_0_l.
Qed.

(** X16.  The savings rate of a month is the same on the "Monthly Income"
    page and on the dashboard card of that month, when both look at the
    same savings record and the month's income is not negative.  (For a
    negative income the page divides and the card shows [0].) *)
Theorem savings_percentage_views_agree
  (yearlySavings : list MonthlySavings.t)
  (monthlyData : gmap Z (list MonthlyIncome.t))
  (monthlySavingsData : gmap Z (option MonthlySavings.t)) (i : nat) :
  let month := (Z.of_nat i + 1)%Z in
  mjoin (monthlySavingsData !! month)
    = List.find (fun s => (MonthlySavings.month s =? month)%Z) yearlySavings ->
  0 <= MonthlyIncomePage.calculateMonthTotal monthlyData month ->
  MonthlyIncomePage.calculateSavingsPercentage monthlyData monthlySavingsData
    month
  = Dashboard.percentage (Dashboard.monthCard yearlySavings monthlyData i).
Proof.
  cbv zeta. intros Hsame Hnn.
  unfold MonthlyIncomePage.calculateSavingsPercentage, Dashboard.monthCard.
  cbv zeta. simpl Dashboard.percentage. rewrite Hsame.
  fold (MonthlyIncomePage.calculateMonthTotal monthlyData (Z.of_nat i + 1)).
  set (total := MonthlyIncomePage.calculateMonthTotal monthlyData _) in *.
  rewrite or_zero_default.
  destruct (List.find _ yearlySavings) as [s|]; simpl.
  - case_decide as Hz.
    + rewrite Hz. rewrite decide_False; [done|].
      intros H. by apply (Qclt_not_eq 0 0).
    + rewrite decide_True; [done|].
      destruct (Qcle_lt_or_eq _ _ Hnn); [done|congruence].
  - case_decide; [|done]. unfold Qcdiv. ring.
Qed.

Lemma savings_percentage_views_agree_witness :
  MonthlyIncomePage.calculateSavingsPercentage
    {[ 3%Z := [ MonthlyIncome.mk "m1" 2025 3 None (lit 400) "job" "salary" true
                  false ] ]}
    {[ 3%Z := Some (MonthlySavings.mk "v1" 2025 3 (lit 100) None) ]}
    3
  = Dashboard.percentage
      (Dashboard.monthCard
         [ MonthlySavings.mk "v1" 2025 3 (lit 100) None ]
         {[ 3%Z := [ MonthlyIncome.mk "m1" 2025 3 None (lit 400) "job" "salary"
                       true false ] ]}
         2).
Proof.
  apply (savings_percentage_views_agree _ _ _ 2); [reflexivity|qc_order].
Defined.

(** ** The cumulative savings series *)

Lemma sum_numbers_app (l1 l2 : list number) :
  sum_numbers (l1 ++ l2) = sum_numbers l1 + sum_numbers l2.
Proof. induction l1 as [|x l1 IH]; simpl; [ring|]. rewrite IH. ring. Qed.

Lemma filter_nil_Forall {A : Type} (f : A -> bool) (l : list A) :
  Forall (fun x => f x = false) l -> List.filter f l = [].
Proof. induction 1 as [|x l Hx _ IH]; simpl; [done|]. by rewrite Hx. Qed.

Lemma filter_all_Forall {A : Type} (f : A -> bool) (l : list A) :
  Forall (fun x => f x = true) l -> List.filter f l = l.
Proof. induction 1 as [|x l Hx _ IH]; simpl; [done|]. by rewrite Hx, IH. Qed.

Section savings_series.
Variable yearlySavings : list MonthlySavings.t.

Let saved_where (f : MonthlySavings.t -> bool) : number :=
  sum_numbers
    (map MonthlySavings.savedAmount (List.filter f yearlySavings)).

Lemma saved_in_month (j : Z) :
  NoDup (map MonthlySavings.month yearlySavings) ->
  saved_where (fun s => (MonthlySavings.month s =? j)%Z)
  = or_zero
      (MonthlySavings.savedAmount
         <$> List.find (fun s => (MonthlySavings.month s =? j)%Z)
               yearlySavings).
Proof.
  unfold saved_where. rewrite or_zero_default.
  induction yearlySavings as [|s l IH]; simpl; intros Hnd; [done|].
  apply NoDup_cons in Hnd as [Hs Hnd].
  destruct (Z.eqb_spec (MonthlySavings.month s) j) as [Hj|Hj]; simpl.
  - rewrite filter_nil_Forall; [simpl; ring|].
    apply Forall_forall. intros s' Hs'. apply Z.eqb_neq. intros Heq.
    apply Hs. rewrite Hj, <- Heq. by apply list_elem_of_fmap_2.
  - by apply IH.
Qed.

Lemma saved_up_to_step (j : Z) :
  saved_where (fun s => (MonthlySavings.month s <=? j)%Z)
  = saved_where (fun s => (MonthlySavings.month s <=? j - 1)%Z)
    + saved_where (fun s => (MonthlySavings.month s =? j)%Z).
Proof.
  unfold saved_where.
  induction yearlySavings as [|s l IH]; simpl; [ring|].
  destruct (Z.leb_spec (MonthlySavings.month s) j),
           (Z.leb_spec (MonthlySavings.month s) (j - 1)),
           (Z.eqb_spec (MonthlySavings.month s) j);
    try lia; simpl; rewrite IH; ring.
Qed.

Lemma saved_up_to (n : nat) :
  NoDup (map MonthlySavings.month yearlySavings) ->
  Forall (fun s => (1 <= MonthlySavings.month s)%Z) yearlySavings ->
  saved_where (fun s => (MonthlySavings.month s <=? Z.of_nat n)%Z)
  = sum_numbers
      (map (fun k =>
              or_zero
                (MonthlySavings.savedAmount
                   <$> List.find
                         (fun s => (MonthlySavings.month s =? Z.of_nat k + 1)%Z)
                         yearlySavings))
           (seq 0 n)).
Proof.
  intros Hnd Hpos. induction n as [|n IH].
  - unfold saved_where. rewrite filter_nil_Forall; [done|].
    eapply Forall_impl; [exact Hpos|]. intros s Hs. simpl in Hs.
    apply Z.leb_gt. lia.
  - rewrite seq_S, map_app, sum_numbers_app. simpl.
    rewrite <- IH, <- saved_in_month by done.
    rewrite saved_up_to_step.
    replace (Z.of_nat (S n) - 1)%Z with (Z.of_nat n) by lia.
    replace (Z.of_nat (S n)) with (Z.of_nat n + 1)%Z by lia.
    ring.
Qed.

End savings_series.

(** X17.  The savings chart has one point per month of the year.  When the
    savings records of the year have distinct months, none before month 1,
    the cumulative value of each point is the sum of the monthly values of
    the points up to it; when moreover no record is after month 12, the
    last cumulative value is the dashboard's total of the year's
    savings. *)
Theorem savingsOverTimeData_cumulative (yearlySavings : list MonthlySavings.t) :
  length (Analytics.savingsOverTimeData yearlySavings) = 12%nat /\
  (NoDup (map MonthlySavings.month yearlySavings) ->
   Forall (fun s => (1 <= MonthlySavings.month s)%Z) yearlySavings ->
   (forall (i : nat) (p : Analytics.SavingsPoint),
      Analytics.savingsOverTimeData yearlySavings !! i = Some p ->
      Analytics.cumulative p
      = sum_numbers
          (map Analytics.monthly
             (take (S i) (Analytics.savingsOverTimeData yearlySavings)))) /\
   (Forall (fun s => (MonthlySavings.month s <= 12)%Z) yearlySavings ->
    Analytics.cumulative
      <$> Analytics.savingsOverTimeData yearlySavings !! 11%nat
    = Some (Dashboard.yearlySavingsTotal yearlySavings))).
Proof.
  split; [reflexivity|]. intros Hnd Hpos. split.
  - intros i p Hp.
    assert (i < 12)%nat as Hi.
    { apply lookup_lt_Some in Hp. exact Hp. }
    unfold Analytics.savingsOverTimeData in Hp.
    rewrite list_lookup_imap in Hp.
    destruct (Analytics.monthNames !! i) as [nm|] eqn:Hnm; [|done].
    injection Hp as <-. cbv zeta. cbn [Analytics.cumulative].
    rewrite foldl_plus_sum, Qcplus_0_l.
    replace (Z.of_nat i + 1)%Z with (Z.of_nat (S i)) by lia.
    rewrite (saved_up_to yearlySavings (S i) Hnd Hpos).
    f_equal. clear Hnm.
    do 12 (destruct i as [|i]; [reflexivity|]). lia.
  - intros Hle. simpl. f_equal.
    unfold Dashboard.yearlySavingsTotal. rewrite filter_all_Forall; [done|].
    eapply Forall_impl; [exact Hle|]. intros s Hs. simpl in Hs.
    apply Z.leb_le. exact Hs.
Qed.

Lemma savingsOverTimeData_cumulative_witness :
  Analytics.cumulative
    <$> Analytics.savingsOverTimeData
          [ MonthlySavings.mk "v2" 2025 2 (lit 150) None;
            MonthlySavings.mk "v5" 2025 5 (lit 50) None ] !! 4%nat
  = Some (lit 200) /\
  Analytics.cumulative
    <$> Analytics.savingsOverTimeData
          [ MonthlySavings.mk "v2" 2025 2 (lit 150) None;
            MonthlySavings.mk "v5" 2025 5 (lit 50) None ] !! 11%nat
  = Some
      (Dashboard.yearlySavingsTotal
         [ MonthlySavings.mk "v2" 2025 2 (lit 150) None;
           MonthlySavings.mk "v5" 2025 5 (lit 50) None ]).
Proof.
  destruct (savingsOverTimeData_cumulative
              [ MonthlySavings.mk "v2" 2025 2 (lit 150) None;
                MonthlySavings.mk "v5" 2025 5 (lit 50) None ]) as [_ H].
  destruct H as [Hc Hlast].
  - simpl. apply NoDup_cons. split; [|apply NoDup_singleton].
    intros Hin%list_elem_of_singleton. done.
  - repeat constructor; simpl; lia.
  - split.
    + destruct (Analytics.savingsOverTimeData _ !! 4%nat) as [p|] eqn:Hp;
        [|done].
      simpl. f_equal. rewrite (Hc _ _ Hp). qc_eval.
    + apply Hlast. repeat constructor; simpl; lia.
Defined.

(** * Properties of the services and the store *)

(** ** Monthly savings: set and get *)


Lemma find_app_Some {A : Type} (f : A -> bool) (l1 l2 : list A) (x : A) :
  List.find f l1 = Some x -> List.find f (l1 ++ l2) = Some x.
Proof.
  induction l1 as [|y l1 IH]; simpl; [done|]. by destruct (f y).
Qed.

Lemma find_app_None {A : Type} (f : A -> bool) (l1 l2 : list A) :
  List.find f l1 = None -> List.find f (l1 ++ l2) = List.find f l2.
Proof.
  induction l1 as [|y l1 IH]; simpl; [done|]. by destruct (f y).
Qed.

Lemma find_Some_elem {A : Type} (f : A -> bool) (l : list A) (x : A) :
  List.find f l = Some x -> x ∈ l /\ f x = true.
Proof.
  intros H. apply find_some in H as [Hin Hf]. by rewrite list_elem_of_In.
Qed.





(** ** Generated entries *)

Lemma rollOver_spec (fuel : nat) (year month : Z) :
  (Z.to_nat month <= fuel)%nat ->
  (snd (monthlyIncomeService.rollOver fuel year month) <= 12)%Z /\
  (fst (monthlyIncomeService.rollOver fuel year month) * 12 + snd (monthlyIncomeService.rollOver fuel year month)
   = year * 12 + month)%Z /\
  ((1 <= month)%Z -> (1 <= snd (monthlyIncomeService.rollOver fuel year month))%Z) /\
  ((month <= 12)%Z -> monthlyIncomeService.rollOver fuel year month = (year, month)).
Proof.
  revert year month. induction fuel as [|fuel IH]; intros year month Hfuel.
  - simpl. repeat split; lia.
  - simpl. destruct (Z.ltb_spec 12 month) as [Hgt|Hle].
    + destruct (IH (year + 1)%Z (month - 12)%Z) as (H1 & H2 & H3 & _); [lia|].
      repeat split; [done|lia|intros _; apply H3; lia|lia].
    + simpl. repeat split; lia.
Qed.

Lemma rollOver_fuel (fuel1 fuel2 : nat) (year month : Z) :
  (Z.to_nat month <= fuel1)%nat -> (Z.to_nat month <= fuel2)%nat ->
  monthlyIncomeService.rollOver fuel1 year month = monthlyIncomeService.rollOver fuel2 year month.
Proof.
  revert fuel2 year month.
  induction fuel1 as [|fuel1 IH]; intros fuel2 year month H1 H2.
  - destruct fuel2 as [|fuel2]; simpl; [done|].
    destruct (Z.ltb_spec 12 month); [lia|done].
  - destruct fuel2 as [|fuel2]; simpl.
    + destruct (Z.ltb_spec 12 month); [lia|done].
    + destruct (Z.ltb_spec 12 month); [|done]. apply IH; lia.
Qed.

(** X19.  The inner loop of [generateFromSource] ends by its own test
    within [Z.to_nat month] rounds, and more rounds change nothing.  It
    returns a month of at most 12 that is as many months after year 0 as
    the month it was given; a month from 1 on is brought into 1..12, and a
    month up to 12 is returned unchanged with its year. *)
Theorem rollOver_enough (year month : Z) (fuel : nat) :
  (Z.to_nat month <= fuel)%nat ->
  exists year' month' : Z,
    monthlyIncomeService.rollOver fuel year month = (year', month') /\
    monthlyIncomeService.rollOver (Z.to_nat month) year month = (year', month') /\
    (month' <= 12)%Z /\
    (year' * 12 + month' = year * 12 + month)%Z /\
    ((1 <= month)%Z -> (1 <= month')%Z) /\
    ((month <= 12)%Z -> year' = year /\ month' = month).
Proof.
  intros Hfuel.
  destruct (rollOver_spec fuel year month Hfuel) as (H1 & H2 & H3 & H4).
  destruct (monthlyIncomeService.rollOver fuel year month) as [y' m'] eqn:Hr.
  exists y', m'. split; [done|]. split.
  { rewrite <- Hr. by apply rollOver_fuel. }
  simpl in *. split; [done|]. split; [done|]. split; [done|].
  intros Hle. specialize (H4 Hle). by injection H4.
Qed.

Lemma rollOver_enough_witness :
  exists year' month' : Z,
    monthlyIncomeService.rollOver 40 2025 (11 + 3) = (year', month') /\
    monthlyIncomeService.rollOver (Z.to_nat (11 + 3)) 2025 (11 + 3)
      = (year', month') /\
    (month' <= 12)%Z /\
    (year' * 12 + month' = 2025 * 12 + (11 + 3))%Z /\
    ((1 <= 11 + 3)%Z -> (1 <= month')%Z) /\
    ((11 + 3 <= 12)%Z -> year' = 2025%Z /\ month' = (11 + 3)%Z).
Proof.
  apply rollOver_enough. simpl. lia.
Defined.

Section generated.
Import monthlyIncomeService.
Variables (source : IncomeSource.t) (startYear startMonth : Z).

Let key (i : Z) : Z * Z :=
  rollOver (Z.to_nat (startMonth + i)) startYear (startMonth + i).

Lemma round_cases (newId : Z -> string) (table : list MonthlyIncome.t) (i : Z) :
  (is_Some (List.find (isEntryOf source (key i).1 (key i).2) table) /\
   generateFromSource_round newId source startYear startMonth table i = table)
  \/ (List.find (isEntryOf source (key i).1 (key i).2) table = None /\
      generateFromSource_round newId source startYear startMonth table i
      = table ++ [newEntry (newId i) source (key i).1 (key i).2]).
Proof.
  unfold generateFromSource_round, key.
  destruct (rollOver _ startYear (startMonth + i)) as [y m]. simpl.
  destruct (List.find _ table) as [r|]; [left|right]; eauto.
Qed.

Lemma newEntry_isEntryOf (id : string) (year month : Z) :
  isEntryOf source year month (newEntry id source year month) = true.
Proof.
  unfold isEntryOf, newEntry. simpl. rewrite !Z.eqb_refl. simpl.
  by apply bool_decide_eq_true.
Qed.

Lemma find_app_is_Some {A : Type} (f : A -> bool) (l1 l2 : list A) :
  is_Some (List.find f l1) -> is_Some (List.find f (l1 ++ l2)).
Proof. intros [x Hx]. exists x. by apply find_app_Some. Qed.

Lemma round_mono (newId : Z -> string) (table : list MonthlyIncome.t) (i : Z)
  (f : MonthlyIncome.t -> bool) :
  is_Some (List.find f table) ->
  is_Some (List.find f
             (generateFromSource_round newId source startYear startMonth table i)).
Proof.
  intros H. destruct (round_cases newId table i) as [[_ ->]|[_ ->]]; [done|].
  by apply find_app_is_Some.
Qed.

Lemma round_has (newId : Z -> string) (table : list MonthlyIncome.t) (i : Z) :
  is_Some
    (List.find (isEntryOf source (key i).1 (key i).2)
       (generateFromSource_round newId source startYear startMonth table i)).
Proof.
  destruct (round_cases newId table i) as [[H ->]|[H ->]]; [done|].
  rewrite find_app_None by done. simpl. rewrite newEntry_isEntryOf. by eexists.
Qed.

Lemma rounds_mono (newId : Z -> string) (l : list Z)
  (table : list MonthlyIncome.t) (f : MonthlyIncome.t -> bool) :
  is_Some (List.find f table) ->
  is_Some
    (List.find f
       (foldl (generateFromSource_round newId source startYear startMonth)
          table l)).
Proof.
  revert table. induction l as [|i l IH]; intros table H; simpl; [done|].
  by apply IH, round_mono.
Qed.

Lemma rounds_have (newId : Z -> string) (l : list Z)
  (table : list MonthlyIncome.t) (i : Z) :
  i ∈ l ->
  is_Some
    (List.find (isEntryOf source (key i).1 (key i).2)
       (foldl (generateFromSource_round newId source startYear startMonth)
          table l)).
Proof.
  revert table. induction l as [|j l IH]; intros table Hi; simpl.
  - by apply elem_of_nil in Hi.
  - apply elem_of_cons in Hi as [->|Hi]; [|by apply IH].
    apply rounds_mono, round_has.
Qed.

Lemma rounds_noop (newId : Z -> string) (l : list Z)
  (table : list MonthlyIncome.t) :
  (forall i, i ∈ l ->
     is_Some (List.find (isEntryOf source (key i).1 (key i).2) table)) ->
  foldl (generateFromSource_round newId source startYear startMonth) table l
  = table.
Proof.
  induction l as [|i l IH]; intros H; simpl; [done|].
  destruct (round_cases newId table i) as [[_ ->]|[Hn _]].
  - apply IH. intros j Hj. apply H. by apply list_elem_of_further.
  - destruct (H i) as [r Hr]; [apply list_elem_of_here|congruence].
Qed.

Lemma rounds_added (newId : Z -> string) (l : list Z)
  (table : list MonthlyIncome.t) :
  exists added : list MonthlyIncome.t,
    foldl (generateFromSource_round newId source startYear startMonth) table l
    = table ++ added /\
    Forall
      (fun r => exists i, i ∈ l /\
                          r = newEntry (newId i) source (key i).1 (key i).2)
      added.
Proof.
  revert table. induction l as [|i l IH]; intros table; simpl.
  - exists []. by rewrite app_nil_r.
  - destruct (IH (generateFromSource_round newId source startYear startMonth
                    table i)) as (added & -> & Hadded).
    assert (Forall
              (fun r => exists j, j ∈ i :: l /\
                 r = newEntry (newId j) source (key j).1 (key j).2) added)
      as Hadded'.
    { eapply Forall_impl; [exact Hadded|]. intros r (j & Hj & ->).
      exists j. split; [by apply list_elem_of_further|done]. }
    destruct (round_cases newId table i) as [[_ ->]|[_ ->]].
    + by exists added.
    + exists (newEntry (newId i) source (key i).1 (key i).2 :: added).
      split; [by rewrite <- app_assoc|].
      constructor; [|done]. exists i. split; [apply list_elem_of_here|done].
Qed.

End generated.

(** X20.  [generateFromSource] leaves the table as it is for a source that
    is not monthly.  It never changes or removes a row: it only adds rows
    at the end, each a recurring row of the source with the amount,
    category and active flag of the source, so that its amount is the
    monthly equivalent of the source, and with a month from 1 to 12 when
    the start month is at least 1.  Afterwards every month of the period
    has a row of the source, and generating again adds nothing. *)
Theorem generateFromSource_properties (newId newId' : Z -> string)
  (source : IncomeSource.t) (startYear startMonth : Z)
  (monthsCount : option Z) (table : list MonthlyIncome.t) :
  let table' :=
    monthlyIncomeService.generateFromSource newId source startYear startMonth
      monthsCount table in
  (IncomeSource.frequency source <> "monthly" -> table' = table) /\
  (exists added : list MonthlyIncome.t,
     table' = table ++ added /\
     Forall
       (fun r =>
          MonthlyIncome.incomeSourceId r = Some (IncomeSource.id source) /\
          MonthlyIncome.amount r
          = convertToMonthly (IncomeSource.amount source)
                             (IncomeSource.frequency source) /\
          MonthlyIncome.type r = IncomeSource.type source /\
          MonthlyIncome.isActive r = IncomeSource.isActive source /\
          MonthlyIncome.isRecurring r = true /\
          ((1 <= startMonth)%Z -> (1 <= MonthlyIncome.month r <= 12)%Z))
       added) /\
  monthlyIncomeService.generateFromSource newId' source startYear startMonth
    monthsCount table' = table' /\
  (IncomeSource.frequency source = "monthly" -> (1 <= startMonth)%Z ->
   forall i : Z,
     (0 <= i < default 12 monthsCount)%Z ->
     exists r : MonthlyIncome.t,
       r ∈ table' /\
       MonthlyIncome.incomeSourceId r = Some (IncomeSource.id source) /\
       (1 <= MonthlyIncome.month r <= 12)%Z /\
       (MonthlyIncome.year r * 12 + MonthlyIncome.month r
        = startYear * 12 + startMonth + i)%Z).
Proof.
  cbv zeta. unfold monthlyIncomeService.generateFromSource. cbv zeta.
  set (n := default 12%Z monthsCount).
  destruct (String.eqb_spec (IncomeSource.frequency source) "monthly")
    as [Hf|Hf]; simpl.
  - split; [done|]. split; [|split].
    + destruct (rounds_added source startYear startMonth newId (seqZ 0 n) table)
        as (added & -> & Hadded).
      exists added. split; [done|].
      eapply Forall_impl; [exact Hadded|]. intros r (i & Hi & ->). simpl.
      rewrite Hf. repeat split; try done.
      * destruct (rollOver_spec (Z.to_nat (startMonth + i)) startYear
                    (startMonth + i)) as (_ & _ & H3 & _); [lia|].
        apply H3. apply elem_of_seqZ in Hi. lia.
      * by destruct (rollOver_spec (Z.to_nat (startMonth + i)) startYear
                       (startMonth + i)) as (H1 & _); [lia|].
    + apply rounds_noop. intros i Hi. by apply rounds_have.
    + intros _ Hsm i Hi.
      destruct (rounds_have source startYear startMonth newId (seqZ 0 n) table i)
        as [r Hr]; [apply elem_of_seqZ; lia|].
      apply find_Some_elem in Hr as [Hin Hr].
      destruct (rollOver_spec (Z.to_nat (startMonth + i)) startYear
                  (startMonth + i)) as (H1 & H2 & H3 & _); [lia|].
      unfold monthlyIncomeService.isEntryOf in Hr.
      apply andb_prop in Hr as [[Hy%Z.eqb_eq Hm%Z.eqb_eq]%andb_prop Hs].
      apply bool_decide_eq_true in Hs.
      exists r. rewrite Hy, Hm. repeat split; try done; [apply H3|]; lia.
  - split; [done|]. split; [|split; [done|done]].
    exists []. by rewrite app_nil_r.
Qed.

Lemma generateFromSource_properties_witness :
  exists r : MonthlyIncome.t,
    r ∈ monthlyIncomeService.generateFromSource
          (fun _ => "new")
          (IncomeSource.mk "s1" "job" (lit 3000) "salary" "monthly" true)
          2025 11 (Some 4%Z) [] /\
    MonthlyIncome.incomeSourceId r = Some "s1" /\
    (1 <= MonthlyIncome.month r <= 12)%Z /\
    (MonthlyIncome.year r * 12 + MonthlyIncome.month r = 2025 * 12 + 11 + 3)%Z.
Proof.
  destruct (generateFromSource_properties
              (fun _ => "new")
              (fun _ => "new")
              (IncomeSource.mk "s1" "job" (lit 3000) "salary" "monthly" true)
              2025 11 (Some 4%Z) []) as (_ & _ & _ & H).
  apply H; [reflexivity|lia|simpl; lia].
Defined.

(** The rows generated for a monthly source over the turn of a year. *)
Example generateFromSource_sample :
  map (fun r => (MonthlyIncome.year r, MonthlyIncome.month r))
    (monthlyIncomeService.generateFromSource
       (fun _ => "new")
       (IncomeSource.mk "s1" "job" (lit 3000) "salary" "monthly" true)
       2025 11 (Some 4%Z) [])
  = [(2025, 11); (2025, 12); (2026, 1); (2026, 2)]%Z.
Proof. reflexivity. Qed.

(** ** The store's result *)





(** ** Switching an entry on and off *)







